(** * Keyboard.js: chord registry and key event dispatch

    A shallow embedding of [keyboard.js] (the [KEY] table, the table of
    unmappable keys, the Safari key identifier translator, the two event
    handlers [cancel] and [monitor], the handler instance made by
    [makeHandler] and the [Keyboard] factory), followed by the properties
    established about it.

    Conventions of the embedding.
    - A key specification is a JavaScript number holding an integer; it is a
      [Z].  The source's [key & m] first converts to a 32 bit integer, which
      leaves bits 0 to 10 as they are, so [Z.land] gives the same result for
      every integer.
    - [keys] and [broken] are JavaScript objects used as maps.  [broken] is
      keyed by the number (a [gmap Z]); [keys] is keyed by an array
      [[code, ctrl, shift, alt]], which JavaScript turns into the string
      [code,ctrl,shift,alt]: it is a [gmap string] and [property] is that
      conversion.  Such a string holds a comma and so never names an
      inherited member of [Object.prototype].
    - The values bound to keys are those the interface documents: a function,
      or an array of a context object and a function.  Both are truthy.
    - Library calls with an effect outside the module ([alert],
      [lib.stopEvent], [lib.setStyle], [lib.observe], the creation of the
      access key element, the call of a bound function) are recorded, in
      order, in a list of [effect]s.
    - What a bound function does when [monitor] calls it is a parameter of
      [monitor]: a change of the factory's state (it may register keys).
      The event object is taken to be as it was when the function
      returns. *)

From Stdlib Require Import ZArith Bool Ascii.
From stdpp Require Import base option list strings pretty gmap fin_maps.

Local Open Scope Z_scope.

(** ** The [KEY] table *)

(** The type of the table's values; [KEY.Z] is the letter Z. *)
Abbreviation number := Z (only parsing).

Module KEY.
Definition BACKSPACE : number := 8.
Definition TAB : number := 9.
Definition ENTER : number := 13.
Definition BREAK : number := 19.
Definition CAPSLOCK : number := 20.
Definition ESC : number := 27.
Definition SPACE : number := 32.
Definition PAGEUP : number := 33.
Definition PAGEDOWN : number := 34.
Definition END : number := 35.
Definition HOME : number := 36.
Definition LEFT : number := 37.
Definition UP : number := 38.
Definition RIGHT : number := 39.
Definition DOWN : number := 40.
Definition INSERT : number := 45.
Definition DELETE : number := 46.
Definition ZERO : number := 48.
Definition ONE : number := 49.
Definition TWO : number := 50.
Definition THREE : number := 51.
Definition FOUR : number := 52.
Definition FIVE : number := 53.
Definition SIX : number := 54.
Definition SEVEN : number := 55.
Definition EIGHT : number := 56.
Definition NINE : number := 57.
Definition UMLAUT : number := 59.
Definition A : number := 65.
Definition B : number := 66.
Definition C : number := 67.
Definition D : number := 68.
Definition E : number := 69.
Definition F : number := 70.
Definition G : number := 71.
Definition H : number := 72.
Definition I : number := 73.
Definition J : number := 74.
Definition K : number := 75.
Definition L : number := 76.
Definition M : number := 77.
Definition N : number := 78.
Definition O : number := 79.
Definition P : number := 80.
Definition Q : number := 81.
Definition R : number := 82.
Definition S : number := 83.
Definition T : number := 84.
Definition U : number := 85.
Definition V : number := 86.
Definition W : number := 87.
Definition X : number := 88.
Definition Y : number := 89.
Definition Z : number := 90.
Definition NUMPAD0 : number := 96.
Definition NUMPAD1 : number := 97.
Definition NUMPAD2 : number := 98.
Definition NUMPAD3 : number := 99.
Definition NUMPAD4 : number := 100.
Definition NUMPAD5 : number := 101.
Definition NUMPAD6 : number := 102.
Definition NUMPAD7 : number := 103.
Definition NUMPAD8 : number := 104.
Definition NUMPAD9 : number := 105.
Definition MULTIPLY : number := 106.
Definition ADD : number := 107.
Definition SUBTRACT : number := 109.
Definition DECIMAL : number := 110.
Definition DIVIDE : number := 111.
Definition F1 : number := 112.
Definition F2 : number := 113.
Definition F3 : number := 114.
Definition F4 : number := 115.
Definition F5 : number := 116.
Definition F6 : number := 117.
Definition F7 : number := 118.
Definition F8 : number := 119.
Definition F9 : number := 120.
Definition F10 : number := 121.
Definition F11 : number := 122.
Definition F12 : number := 123.
Definition NUMLOCK : number := 144.
Definition SCROLL : number := 145.
Definition UMLAUT_2 : number := 186.
Definition PLUS : number := 187.
Definition COMMA : number := 188.
Definition MINUS : number := 189.
Definition PERIOD : number := 190.
Definition APOSTROPHE : number := 191.
Definition AE : number := 192.
Definition ACCENT : number := 219.
Definition HALF : number := 220.
Definition AA : number := 221.
Definition OE : number := 222.
Definition ANGLE : number := 226.
Definition CTRL : number := 256.
Definition SHIFT : number := 512.
Definition ALT : number := 1024.
End KEY.

Definition KEYMASK  : Z := 255.
Definition KEYSHIFT : Z := 16.
Definition KEYCTRL  : Z := 17.
Definition KEYALT   : Z := 18.

(** ** JavaScript values and conversions used by the module *)

(** Truthiness of a string: every string but the empty one. *)
Definition truthy_string (s : string) : bool :=
  match s with
  | EmptyString => false
  | String _ _ => true
  end.

(** Truthiness of a number that holds an integer: every one but zero. *)
Definition truthy_number (n : Z) : bool := negb (n =? 0).

(** Truthiness of a property that may be missing ([undefined] is falsy). *)
Definition truthy_opt {A} (t : A → bool) (o : option A) : bool :=
  match o with
  | Some a => t a
  | None => false
  end.

(** [String(b)] for a boolean. *)
Definition string_of_bool (b : bool) : string :=
  if b then "true" else "false".

(** The line feed of the alert texts. *)
Definition LF : string := String (Ascii.ascii_of_nat 10) EmptyString.

(** ** The list of known unmappable keys *)

Record broken_entry := {
  key : Z;
  name : string;
  browsers : string;
  does : option string
}.

Definition broken_list : list broken_entry :=
  [
    {| key := KEY.CTRL + KEY.TAB; name := "Ctrl+Tab"; browsers := "Win-FF3, Win-IE7"; does := Some "next tab" |};
    {| key := KEY.ALT + KEY.TAB; name := "Alt+Tab"; browsers := "Win-all"; does := Some "task switch" |};
    {| key := KEY.ALT + KEY.ENTER; name := "Alt+Enter"; browsers := "Win-IE7"; does := Some "full screen" |};
    {| key := KEY.BREAK; name := "Break"; browsers := "Mac-all"; does := Some "key doesn't exist on Mac" |};
    {| key := KEY.CTRL + KEY.BREAK; name := "Ctrl+Break"; browsers := "Win-all, Mac-all"; does := Some "nothing on Win, key doesn't exist on Mac" |};
    {| key := KEY.SHIFT + KEY.BREAK; name := "Shift+Break"; browsers := "Mac-all"; does := Some "key doesn't exist on Mac" |};
    {| key := KEY.ALT + KEY.BREAK; name := "Alt+Break"; browsers := "Mac-all"; does := Some "key doesn't exist on Mac" |};
    {| key := KEY.CAPSLOCK; name := "CapsLock"; browsers := "all browsers"; does := None |};
    {| key := KEY.CTRL + KEY.CAPSLOCK; name := "Ctrl+CapsLock"; browsers := "all browsers"; does := None |};
    {| key := KEY.SHIFT + KEY.CAPSLOCK; name := "Shift+CapsLock"; browsers := "all browsers"; does := None |};
    {| key := KEY.ALT + KEY.CAPSLOCK; name := "Alt+CapsLock"; browsers := "all browsers"; does := None |};
    {| key := KEY.CTRL + KEY.ESC; name := "Ctrl+Esc"; browsers := "Win-all"; does := Some "start menu" |};
    {| key := KEY.ALT + KEY.ESC; name := "Alt+Esc"; browsers := "Win-all"; does := Some "task switch" |};
    {| key := KEY.CTRL + KEY.SPACE; name := "Ctrl+Space"; browsers := "Mac-all"; does := Some "spotlight" |};
    {| key := KEY.ALT + KEY.SPACE; name := "Alt+Space"; browsers := "Win-all"; does := Some "system menu" |};
    {| key := KEY.CTRL + KEY.PAGEUP; name := "Ctrl+PAGEUP"; browsers := "Win-FF3"; does := Some "previous tab" |};
    {| key := KEY.CTRL + KEY.PAGEDOWN; name := "Ctrl+PAGEDOWN"; browsers := "Win-FF3"; does := Some "next tab" |};
    {| key := KEY.ALT + KEY.HOME; name := "Alt+Home"; browsers := "Win-IE7"; does := Some "home page" |};
    {| key := KEY.ALT + KEY.LEFT; name := "Alt+Left"; browsers := "Win-Safari3"; does := Some "history back" |};
    {| key := KEY.ALT + KEY.RIGHT; name := "Alt+Right"; browsers := "Win-Safari3"; does := Some "history forward" |};
    {| key := KEY.CTRL + KEY.ZERO; name := "Ctrl+0"; browsers := "Win-IE7, Win-Safari3"; does := Some "reset zoom" |};
    {| key := KEY.UMLAUT; name := "�"; browsers := "Mac-Safari3"; does := None |};
    {| key := KEY.CTRL + KEY.UMLAUT; name := "Ctrl+�"; browsers := "Mac-Safari3"; does := None |};
    {| key := KEY.SHIFT + KEY.UMLAUT; name := "Shift+�"; browsers := "Mac-Safari3"; does := None |};
    {| key := KEY.ALT + KEY.UMLAUT; name := "Alt+�"; browsers := "Mac-Safari3"; does := None |};
    {| key := KEY.ALT + KEY.A; name := "Alt+A"; browsers := "Win-IE7"; does := Some "address bar" |};
    {| key := KEY.ALT + KEY.B; name := "Alt+B"; browsers := "Win-Safari3"; does := Some "bookmarks" |};
    {| key := KEY.ALT + KEY.D; name := "Alt+D"; browsers := "Win-IE7, Win-Safari3"; does := Some "address bar" |};
    {| key := KEY.ALT + KEY.E; name := "Alt+E"; browsers := "Win-Safari3"; does := Some "edit menu" |};
    {| key := KEY.CTRL + KEY.F; name := "Ctrl+F"; browsers := "Win-IE7, WIn-Safari3"; does := Some "find" |};
    {| key := KEY.ALT + KEY.F; name := "Alt+F"; browsers := "Win-Safari3"; does := Some "file menu" |};
    {| key := KEY.ALT + KEY.H; name := "Alt+H"; browsers := "Win-Safari3"; does := Some "help menu" |};
    {| key := KEY.ALT + KEY.I; name := "Alt+I"; browsers := "Win-Safari3"; does := Some "history menu" |};
    {| key := KEY.CTRL + KEY.O; name := "Ctrl+O"; browsers := "Win-IE7, Win-Safari3"; does := Some "open" |};
    {| key := KEY.CTRL + KEY.P; name := "Ctrl+P"; browsers := "Win-IE7, Win-Safari3"; does := Some "print" |};
    {| key := KEY.ALT + KEY.V; name := "Alt+V"; browsers := "Win-Safari3"; does := Some "view menu" |};
    {| key := KEY.ALT + KEY.W; name := "Alt+W"; browsers := "Win-Safari3"; does := Some "window menu" |};
    {| key := KEY.SHIFT + KEY.NUMPAD0; name := "Shift+Pad0"; browsers := "all browsers"; does := None |};
    {| key := KEY.SHIFT + KEY.NUMPAD1; name := "Shift+Pad1"; browsers := "all browsers"; does := None |};
    {| key := KEY.SHIFT + KEY.NUMPAD2; name := "Shift+Pad2"; browsers := "all browsers"; does := None |};
    {| key := KEY.SHIFT + KEY.NUMPAD3; name := "Shift+Pad3"; browsers := "all browsers"; does := None |};
    {| key := KEY.SHIFT + KEY.NUMPAD4; name := "Shift+Pad4"; browsers := "all browsers"; does := None |};
    {| key := KEY.SHIFT + KEY.NUMPAD5; name := "Shift+Pad5"; browsers := "all browsers"; does := None |};
    {| key := KEY.SHIFT + KEY.NUMPAD6; name := "Shift+Pad6"; browsers := "all browsers"; does := None |};
    {| key := KEY.SHIFT + KEY.NUMPAD7; name := "Shift+Pad7"; browsers := "all browsers"; does := None |};
    {| key := KEY.SHIFT + KEY.NUMPAD8; name := "Shift+Pad8"; browsers := "all browsers"; does := None |};
    {| key := KEY.SHIFT + KEY.NUMPAD9; name := "Shift+Pad9"; browsers := "all browsers"; does := None |};
    {| key := KEY.CTRL + KEY.ADD; name := "Ctrl+Pad+"; browsers := "Win-IE7"; does := Some "zoom" |};
    {| key := KEY.CTRL + KEY.SUBTRACT; name := "Ctrl+Pad-"; browsers := "Win-IE7"; does := Some "zoom" |};
    {| key := KEY.SHIFT + KEY.DECIMAL; name := "Shift+PadDecimal"; browsers := "all browsers"; does := None |};
    {| key := KEY.F1; name := "F1"; browsers := "Win-IE7"; does := Some "help" |};
    {| key := KEY.CTRL + KEY.F1; name := "Ctrl+F1"; browsers := "Win-IE7, Mac-Safari3"; does := Some "help on Windows, nothing on Mac" |};
    {| key := KEY.SHIFT + KEY.F1; name := "Shift+F1"; browsers := "Win-IE7"; does := Some "help" |};
    {| key := KEY.CTRL + KEY.F3; name := "Ctrl+F3"; browsers := "Mac-all"; does := Some "finder" |};
    {| key := KEY.CTRL + KEY.F4; name := "Ctrl+F4"; browsers := "Win-all"; does := Some "close window" |};
    {| key := KEY.ALT + KEY.F4; name := "Alt+F4"; browsers := "Win-all"; does := Some "close browser" |};
    {| key := KEY.F5; name := "F5"; browsers := "Win-Safari3"; does := Some "reload" |};
    {| key := KEY.ALT + KEY.F6; name := "Alt+F6"; browsers := "Win-IE7, Win-Safari3"; does := None |};
    {| key := KEY.CTRL + KEY.F8; name := "Ctrl+F8"; browsers := "Mac-all"; does := Some "time machine" |};
    {| key := KEY.F9; name := "F9"; browsers := "Mac-all"; does := Some "exposé" |};
    {| key := KEY.SHIFT + KEY.F9; name := "Shift+F9"; browsers := "Mac-all"; does := Some "exposé" |};
    {| key := KEY.F10; name := "F10"; browsers := "Mac-all"; does := Some "exposé" |};
    {| key := KEY.SHIFT + KEY.F10; name := "Shift+F10"; browsers := "Win-Safari3, Mac-all"; does := Some "context menu on Windows, exposé on Mac" |};
    {| key := KEY.F11; name := "F11"; browsers := "Mac-all"; does := Some "exposé" |};
    {| key := KEY.SHIFT + KEY.F11; name := "Shift+F11"; browsers := "Mac-all"; does := Some "exposé" |};
    {| key := KEY.F12; name := "F12"; browsers := "Mac-all"; does := Some "exposé" |};
    {| key := KEY.SHIFT + KEY.F12; name := "Shift+F12"; browsers := "Mac-all"; does := Some "exposé" |};
    {| key := KEY.NUMLOCK; name := "NumLock"; browsers := "all browsers"; does := None |};
    {| key := KEY.CTRL + KEY.NUMLOCK; name := "Ctrl+NumLock"; browsers := "all browsers"; does := None |};
    {| key := KEY.SHIFT + KEY.NUMLOCK; name := "Shift+NumLock"; browsers := "all browsers"; does := None |};
    {| key := KEY.ALT + KEY.NUMLOCK; name := "Alt+NumLock"; browsers := "all browsers"; does := None |};
    {| key := KEY.SCROLL; name := "ScrollLock"; browsers := "all browsers"; does := None |};
    {| key := KEY.CTRL + KEY.SCROLL; name := "Ctrl+ScrollLock"; browsers := "all browsers"; does := None |};
    {| key := KEY.SHIFT + KEY.SCROLL; name := "Shift+ScrollLock"; browsers := "all browsers"; does := None |};
    {| key := KEY.ALT + KEY.SCROLL; name := "Alt+ScrollLock"; browsers := "all browsers"; does := None |};
    {| key := KEY.PLUS; name := "+"; browsers := "Win-FF2, Win-FF3"; does := None |};
    {| key := KEY.CTRL + KEY.PLUS; name := "Ctrl++"; browsers := "Win-FF2, Win-FF3, Win-IE7, Win-Safari3"; does := Some "zoom in FF2, IE7 and Safari 3" |};
    {| key := KEY.SHIFT + KEY.PLUS; name := "Shift++"; browsers := "Win-FF2, Win-FF3"; does := None |};
    {| key := KEY.ALT + KEY.PLUS; name := "Alt++"; browsers := "Win-FF2, Win-FF3"; does := None |};
    {| key := KEY.MINUS; name := "-"; browsers := "Win-FF2, Win-FF3"; does := None |};
    {| key := KEY.CTRL + KEY.MINUS; name := "Ctrl+-"; browsers := "Win-FF2, Win-FF3, Win-IE7, Win-Safari3"; does := Some "zoom in IE7 and Safari 3" |};
    {| key := KEY.SHIFT + KEY.MINUS; name := "Shift+-"; browsers := "Win-FF2, Win-FF3"; does := None |};
    {| key := KEY.ALT + KEY.MINUS; name := "Alt+-"; browsers := "Win-FF2, Win-FF3"; does := None |};
    {| key := KEY.ALT + KEY.AE; name := "Alt+Æ"; browsers := "Win-IE7"; does := None |};
    {| key := KEY.ACCENT; name := "´"; browsers := "Mac-Safari3"; does := None |};
    {| key := KEY.CTRL + KEY.ACCENT; name := "Ctrl+´"; browsers := "Mac-Safari3"; does := None |};
    {| key := KEY.SHIFT + KEY.ACCENT; name := "Shift+´"; browsers := "Mac-Safari3"; does := None |};
    {| key := KEY.ALT + KEY.ACCENT; name := "Alt+´"; browsers := "Mac-Safari3"; does := None |};
    {| key := KEY.HALF; name := "½"; browsers := "Mac-Safari3"; does := None |};
    {| key := KEY.CTRL + KEY.HALF; name := "Ctrl+½"; browsers := "Mac-Safari3"; does := None |};
    {| key := KEY.SHIFT + KEY.HALF; name := "Shift+½"; browsers := "Mac-Safari3"; does := None |};
    {| key := KEY.ALT + KEY.HALF; name := "Alt+½"; browsers := "Mac-Safari3"; does := None |};
    {| key := KEY.ALT; name := "Alt"; browsers := "IE7"; does := Some "activate menu" |}
  ].

(** The function applied to every entry of the list: the text stored in
    [broken] under the entry's key. *)
Definition broken_text (obj : broken_entry) : string :=
  let text := name obj +:+ " is unmappable in " +:+ browsers obj in
  if truthy_opt truthy_string (does obj)
  then text +:+ " (" +:+ default "" (does obj) +:+ ")"
  else text.

(** [broken = {}] filled by [lib.each], entry after entry. *)
Definition broken : gmap Z string :=
  foldl (λ acc obj, <[key obj := broken_text obj]> acc) ∅ broken_list.

(** ** The Safari key identifier translator (Danish layout)

    An event's key identifier is a DOM 3 identifier ([U+] and four
    hexadecimal digits, or a key name such as [Enter]); none of them names
    an inherited member of [Object.prototype], so a lookup finds the
    table's own entries only. *)

Definition safariTranslator : gmap string Z :=
  list_to_map [
    ("U+0022", KEY.TWO);
    ("U+0026", KEY.SIX);
    ("U+0027", KEY.APOSTROPHE);
    ("U+0028", KEY.EIGHT);
    ("U+0029", KEY.NINE);
    ("U+002A", KEY.APOSTROPHE);
    ("U+002F", KEY.SEVEN);
    ("U+003A", KEY.PERIOD);
    ("U+003B", KEY.COMMA);
    ("U+003C", KEY.ANGLE);
    ("U+003D", KEY.ZERO);
    ("U+003E", KEY.ANGLE);
    ("U+003F", KEY.PLUS);
    ("U+00C5", KEY.AA);
    ("U+00C6", KEY.AE);
    ("U+00D8", KEY.OE);
    ("U+00E5", KEY.AA);
    ("U+00E6", KEY.AE);
    ("U+00F8", KEY.OE);
    ("U+20AC", KEY.FOUR)
  ].

(** ** Browser, elements, events, bound methods *)

(** The two results of browser sniffing that the module reads from [lib]. *)
Record library := {
  webkit : bool;
  msie : bool
}.

(** What [handlerFor] and [register] take as [element]: the document, or an
    element named by its id (as the id string or as the element itself;
    [document.getElementById] and [lib.identify] relate the two). *)
Inductive element :=
  | document
  | byId (id : string).

(** The objects that receive a call or a child: [document.body], an element,
    or any other object given as the context of a method. *)
Inductive object :=
  | body
  | node (e : element)
  | other (name : string).

(** A JavaScript function is known by its name; what it does when called is
    a parameter of the dispatch (see [invoke] below). *)
Definition fname := string.

(** The second argument of [register]: a function, or the array
    [[context, function]]. *)
Inductive method :=
  | Callback (f : fname)
  | InContext (context : object) (f : fname).

(** The fields of a native key event that the module reads or writes. *)
Record event := {
  keyCode : Z;
  keyIdentifier : option string;
  ctrlKey : bool;
  shiftKey : bool;
  altKey : bool;
  target : object;
  defaultPrevented : bool;
  propagationStopped : bool
}.

(** A keyspec: the array [[code, ctrl, shift, alt]] that indexes [keys]. *)
Definition keyspec : Type := Z * bool * bool * bool.

(** The property name JavaScript makes of such an array. *)
Definition property (i : keyspec) : string :=
  let '(code, ctrl, shift, alt) := i in
  pretty code +:+ "," +:+ string_of_bool ctrl +:+ "," +:+
  string_of_bool shift +:+ "," +:+ string_of_bool alt.

(** What the module does to the world outside its own tables. *)
Inductive effect :=
  | alert (text : string)
  | stopEvent
  | call (f : fname) (this : object) (ev : event)
  | setStyle (id : string)
  | appendAccessKeyDiv (parent : object) (id : string) (accessKey : Z)
  | observe (e : element) (eventName : string)
  | makeFocusable (o : object).

(** A handler instance: the variables [element] and [keys] its closures
    share. *)
Record handler := {
  element_of : element;
  keys : gmap string method
}.

Global Instance element_eq_dec : EqDecision element.
Proof. solve_decision. Defined.

Global Instance element_countable : Countable element :=
  inj_countable'
    (λ e, match e with document => None | byId id => Some id end)
    (λ o, match o with None => document | Some id => byId id end)
    (λ e, match e with document => eq_refl | byId _ => eq_refl end).

(** A call of [Keyboard.register] kept until the document is loaded. *)
Record registration := {
  reg_element : element;
  reg_key : Z;
  reg_method : method;
  reg_override : bool
}.

(** The state of the factory: whether [document.body] exists yet, the
    handler instances by element, and the registrations waiting for the
    [dom:loaded] event. *)
Record world := {
  loaded : bool;
  handlers : gmap element handler;
  deferred : list registration
}.

(** [lib.stopEvent(event)]. *)
Definition stopped (ev : event) : event :=
  {| keyCode := keyCode ev; keyIdentifier := keyIdentifier ev;
     ctrlKey := ctrlKey ev; shiftKey := shiftKey ev; altKey := altKey ev;
     target := target ev;
     defaultPrevented := true; propagationStopped := true |}.

(** [event.keyCode = 0]. *)
Definition zero_keyCode (ev : event) : event :=
  {| keyCode := 0; keyIdentifier := keyIdentifier ev;
     ctrlKey := ctrlKey ev; shiftKey := shiftKey ev; altKey := altKey ev;
     target := target ev;
     defaultPrevented := defaultPrevented ev;
     propagationStopped := propagationStopped ev |}.

(** ** The event handlers *)

(** This function detects all valid accesskeys in IE. *)
Definition isAccessKey (key : Z) (alt : bool) : bool :=
  alt && (((KEY.ZERO <=? key) && (key <=? KEY.NINE)) ||
          ((KEY.A <=? key) && (key <=? KEY.Z))).

(** The first statement of [cancel]: the value of its variable [key], for
    an event whose key identifier names no member inherited from
    [Object.prototype]; [cancel_key_js] below is the statement for any
    identifier. *)
Definition cancel_key (lib : library) (ev : event) : keyspec :=
  match keyIdentifier ev ≫= (safariTranslator !!.) with
  | Some code =>
      if webkit lib && truthy_opt truthy_string (keyIdentifier ev)
         && truthy_number code
      then (code, ctrlKey ev, shiftKey ev, altKey ev)
      else (keyCode ev, ctrlKey ev, shiftKey ev, altKey ev)
  | None => (keyCode ev, ctrlKey ev, shiftKey ev, altKey ev)
  end.

(** The universal default keyboard event canceller: [cancel(keys, event)]
    gives the event as it leaves the function and what was done. *)
Definition cancel (lib : library) (keys : gmap string method) (ev : event)
  : event * list effect :=
  let key := cancel_key lib ev in
  match keys !! property key with
  | Some _ =>
      let ev := stopped ev in
      (* Kill default behaviour of F-keys in IE *)
      let ev :=
        if msie lib && (112 <=? keyCode ev) && (keyCode ev <=? 123)
        then zero_keyCode ev else ev in
      (* For Alt+<alfanumeric> in IE, move accesskey div to be onscreen *)
      if msie lib && isAccessKey (keyCode ev) (altKey ev)
      then (ev, [stopEvent; setStyle ("__altkeyhandler_" +:+ pretty (keyCode ev))])
      else (ev, [stopEvent])
  | None => (ev, [])
  end.

(** The first statement of [monitor]: the value of its variable [key], for
    an event whose key identifier names no member inherited from
    [Object.prototype]; [monitor_key_js] below is the statement for any
    identifier. *)
Definition monitor_key (lib : library) (ev : event) : keyspec :=
  match keyIdentifier ev ≫= (safariTranslator !!.) with
  | Some code =>
      if webkit lib && truthy_opt truthy_string (keyIdentifier ev)
         && truthy_number code
      then (code, ctrlKey ev, shiftKey ev, altKey ev)
      else (keyCode ev, ctrlKey ev, shiftKey ev, altKey ev)
  | None => (keyCode ev, ctrlKey ev, shiftKey ev, altKey ev)
  end.

Section Monitor.

(** What a bound function does to the factory's state when it is called
    with a receiver and the event. *)
Variable invoke : fname → object → event → world → world.

(** The universal keyboard event handler: [monitor(keys, event)] run in
    the state [w]. *)
Definition monitor (lib : library) (keys : gmap string method) (ev : event)
    (w : world) : world * event * list effect :=
  let key := monitor_key lib ev in
  match keys !! property key with
  | Some (Callback f) =>
      (* Call handler in context of event target *)
      (invoke f (target ev) ev w, stopped ev,
       [call f (target ev) ev; stopEvent])
  | Some (InContext context f) =>
      (* Call handler in specified context *)
      (invoke f context ev w, stopped ev,
       [call f context ev; stopEvent])
  | None => (w, ev, [])
  end.

End Monitor.

(** ** The handler instance *)

(** [makeHandler(element)]: the fresh instance, the two observers it sets
    up and the change of [tabIndex] that makes the target focusable. *)
Definition makeHandler (e : element) : handler * list effect :=
  let target := match e with document => body | byId _ => node e end in
  ({| element_of := e; keys := ∅ |},
   [observe e "keydown"; observe e "keyup"; makeFocusable target]).

(** The variable declarations of [handler.register]: the [index] a key
    specification decodes to. *)
Definition decode (key : Z) : keyspec :=
  let keyCode  := Z.land key KEYMASK in
  let ctrlKey  := truthy_number (Z.land key KEY.CTRL) in
  let shiftKey := truthy_number (Z.land key KEY.SHIFT) in
  let altKey   := truthy_number (Z.land key KEY.ALT) in
  (keyCode, ctrlKey, shiftKey, altKey).

(** The text of the alert for a broken key. *)
Definition broken_alert (text : string) : string :=
  text +:+ "." +:+ LF +:+ "This key mapping has been ignored." +:+ LF +:+
  "If you really want to map this key, set the override parameter to true.".

(** Handle Ctrl, Shift and Alt solitary mappings: the block that replaces
    [index] when the key code is zero. *)
Definition solitary (key : Z) (index : keyspec) : keyspec :=
  if index.1.1.1 =? 0 then
    if key =? KEY.CTRL then (KEYCTRL, false, false, false)
    else if key =? KEY.SHIFT then (KEYSHIFT, false, false, false)
    else if key =? KEY.ALT then (KEYALT, false, false, false)
    else index
  else index.

(** The text of the alert for a key that is mapped already. *)
Definition mapped_alert (index : keyspec) : string :=
  let '(code, ctrl, shift, alt) := index in
  "Key " +:+ pretty code +:+ " (ctrl=" +:+ string_of_bool ctrl +:+
  ", shift=" +:+ string_of_bool shift +:+
  ", alt=" +:+ string_of_bool alt +:+ ") already mapped!".

(** [handler.register(key, method, override)] on the instance [h]: the
    instance afterwards and what was done.  A missing [override] is
    [false]. *)
Definition register (lib : library) (h : handler)
    (key : Z) (method : method) (override : bool) : handler * list effect :=
  let index := decode key in
  (* Check for broken keys *)
  if truthy_opt truthy_string (broken !! key) && negb override
  then (h, [alert (broken_alert (default "" (broken !! key)))])
  else
    let index := solitary key index in
    let '(code, ctrl, shift, alt) := index in
    match keys h !! property index with
    | Some _ => (h, [alert (mapped_alert index)])
    | None =>
        let keys1 := <[property index := method]> (keys h) in
        (* Special care for the 'umlaut' key *)
        let keys2 :=
          if code =? KEY.UMLAUT
          then <[property (KEY.UMLAUT_2, ctrl, shift, alt) := method]> keys1
          else keys1 in
        (* Make Alt+<alfanumeric> work in IE *)
        let target :=
          match element_of h with
          | document => body
          | byId _ => node (element_of h)
          end in
        ({| element_of := element_of h; keys := keys2 |},
         if msie lib && isAccessKey code alt
         then [appendAccessKeyDiv target ("__altkeyhandler_" +:+ pretty code) code]
         else [])
    end.

(** ** The factory *)

Definition set_handler (w : world) (e : element) (h : handler) : world :=
  {| loaded := loaded w;
     handlers := <[e := h]> (handlers w);
     deferred := deferred w |}.

(** The factory object [Keyboard]. *)
Module Keyboard.

(** [Keyboard.handlerFor(element)]: the instance of the element, made on
    the first call; for an element whose target exists and whose id names
    no member inherited from [Object.prototype] ([handlerFor_js] below has
    the other cases). *)
Definition handlerFor (w : world) (e : element)
  : world * handler * list effect :=
  match handlers w !! e with
  | Some h => (w, h, [])
  | None =>
      let '(h, fx) := makeHandler e in
      (set_handler w e h, h, fx)
  end.

(** [Keyboard.register(element, key, method, override)]. *)
Definition register (lib : library) (w : world)
    (e : element) (key : Z) (method : method) (override : bool)
  : world * list effect :=
  if loaded w then
    (* Register key immediately *)
    let '(w1, h, fx1) := handlerFor w e in
    let '(h', fx2) := register lib h key method override in
    (set_handler w1 e h', fx1 ++ fx2)
  else
    (* Defer key registration until dom is loaded *)
    ({| loaded := loaded w;
        handlers := handlers w;
        deferred := deferred w ++
          [{| reg_element := e; reg_key := key;
              reg_method := method; reg_override := override |}] |},
     [observe document "dom:loaded"]).


End Keyboard.

(** The state of a page on which nothing was registered yet. *)
Definition startup (body_exists : bool) : world :=
  {| loaded := body_exists; handlers := ∅; deferred := [] |}.

(** [keys[index]] of the instance of [e], if there is one: the method a
    key event with that index reaches. *)
Definition lookup_key (w : world) (e : element) (i : keyspec) : option method :=
  h ← handlers w !! e; keys h !! property i.

(** ** Delivery of native events to the observers of an element *)

(** The observer of [keydown] that [makeHandler] sets up. *)
Definition keydown (lib : library) (w : world) (e : element) (ev : event)
  : event * list effect :=
  match handlers w !! e with
  | Some h => cancel lib (keys h) ev
  | None => (ev, [])
  end.

(** The observer of [keyup] that [makeHandler] sets up. *)
Definition keyup (invoke : fname → object → event → world → world)
    (lib : library) (w : world) (e : element) (ev : event)
  : world * event * list effect :=
  match handlers w !! e with
  | Some h => monitor invoke lib (keys h) ev w
  | None => (w, ev, [])
  end.

(** ** Notions used to state the properties *)

(** The [index] under which [handler.register] files a key specification:
    the decoded one, after the solitary modifier block. *)
Definition index_of (key : Z) : keyspec := solitary key (decode key).

(** A call of [register] went through when it raised no alert: both ways
    out of [register] that store nothing raise one. *)
Definition is_alert (x : effect) : bool :=
  match x with
  | alert _ => true
  | _ => false
  end.

Definition accepted (fx : list effect) : bool := forallb (negb ∘ is_alert) fx.

(** The instance after a registration that went through: the method under
    its index and, for the umlaut key, under the index of the secondary
    code as well. *)
Definition bound (h : handler) (i : keyspec) (m : method) : handler :=
  {| element_of := element_of h;
     keys :=
       if i.1.1.1 =? KEY.UMLAUT
       then <[property (KEY.UMLAUT_2, i.1.1.2, i.1.2, i.2) := m]>
              (<[property i := m]> (keys h))
       else <[property i := m]> (keys h) |}.

(** The chord normalisation in the specification's words: if the platform
    reports key identifiers, the event carries one and that identifier is
    in the translation table, the translated code is the base code;
    otherwise the raw key code is.  The three flags are the event's. *)
Definition normalize (lib : library) (ev : event) : keyspec :=
  let translated :=
    if webkit lib then id ← keyIdentifier ev; safariTranslator !! id
    else None in
  (default (keyCode ev) translated, ctrlKey ev, shiftKey ev, altKey ev).



(** A property name without a comma. *)
Fixpoint comma_free (s : string) : bool :=
  match s with
  | EmptyString => true
  | String a s' => negb (Ascii.eqb a ","%char) && comma_free s'
  end.


(** Concrete data for the examples. *)
Definition no_effect : fname → object → event → world → world :=
  λ _ _ _ w, w.

Definition gecko : library := {| webkit := false; msie := false |}.
Definition safari : library := {| webkit := true; msie := false |}.
Definition explorer : library := {| webkit := false; msie := true |}.

Definition key_event (code : Z) (ident : option string)
    (ctrl shift alt : bool) (t : object) : event :=
  {| keyCode := code; keyIdentifier := ident;
     ctrlKey := ctrl; shiftKey := shift; altKey := alt;
     target := t; defaultPrevented := false; propagationStopped := false |}.

Definition empty_handler (e : element) : handler :=
  {| element_of := e; keys := ∅ |}.

Definition myDiv : element := byId "myDiv".

(** A Ctrl+F event as Safari reports it. *)
Definition ctrl_f : event :=
  key_event KEY.F (Some "U+0046") true false false (node myDiv).

(** An event of the key marked with the Euro sign, as Safari reports it on
    the Danish layout: the key code is the one of the US layout. *)
Definition euro : event :=
  key_event KEY.E (Some "U+20AC") false false false body.

(** ** Further parts of the module *)

(** The key specification a caller writes for a keyspec: the sum of the
    key code and of the weights [KEY.CTRL], [KEY.SHIFT], [KEY.ALT] of its
    flags, as in [KEY.CTRL + KEY.SHIFT + KEY.ESC]. *)
Definition spec_of (i : keyspec) : Z :=
  let '(code, ctrl, shift, alt) := i in
  code + (if ctrl then KEY.CTRL else 0)
       + (if shift then KEY.SHIFT else 0)
       + (if alt then KEY.ALT else 0).

(** The instances [handler.register] can produce: an instance fresh from
    [makeHandler], and any instance left by a call of [register] on such
    an instance. *)
Inductive reachable (lib : library) : handler → Prop :=
  | reachable_made (e : element) : reachable lib (makeHandler e).1
  | reachable_register (h : handler) (key : Z) (m : method) (override : bool) :
      reachable lib h → reachable lib (register lib h key m override).1.

(** The part of a target element that [makeHandler] reads and writes to
    make it focusable. *)
Record focus := {
  tabIndex : Z;
  nodeName : string
}.

(** Make element focusable: what the effect [makeFocusable] does to the
    target. *)
Definition focusable (t : focus) : focus :=
  if (tabIndex t =? -1) || negb (truthy_number (tabIndex t)) then
    if String.eqb (nodeName t) "INPUT"
    then {| tabIndex := 0; nodeName := nodeName t |}
    else {| tabIndex := -1; nodeName := nodeName t |}
  else t.

(** The state the jQuery variant of [lib.identify] works on: the ids of
    the elements of the document, and [lib.identify.counter], which
    starts at 1. *)
Record page := {
  ids : gset string;
  counter : Z
}.

Definition first_page (ids : gset string) : page :=
  {| ids := ids; counter := 1 |}.

Definition anonymous_id (n : Z) : string := "anonymous_element_" +:+ pretty n.

(** The loop [do { id = 'anonymous_element_' + (self.counter += 1); }
    while (document.getElementById(id))], run for at most [fuel] rounds:
    the id it leaves the loop with and the counter then. *)
Fixpoint identify_loop (fuel : nat) (ids : gset string) (counter : Z)
  : option (string * Z) :=
  match fuel with
  | O => None
  | S fuel =>
      let counter := counter + 1 in
      let id := anonymous_id counter in
      if decide (id ∈ ids) then identify_loop fuel ids counter
      else Some (id, counter)
  end.

(** [lib.identify(element)] of the jQuery variant, for an element of the
    document whose [id] is the given string (the empty string when it has
    none): the id returned and the page afterwards. *)
Definition identify (fuel : nat) (p : page) (id : string)
  : option (string * page) :=
  if truthy_string id then Some (id, p)
  else
    '(id', c) ← identify_loop fuel (ids p) (counter p);
    Some (id', {| ids := {[id']} ∪ ids p; counter := c |}).

(** ** Plain objects used as maps

    [safariTranslator] and [handlers] are plain objects, read with
    [object[name]] and never with an own-property test: a name that the
    object does not hold itself still finds the member of that name that
    every object inherits from [Object.prototype] (a function such as
    [constructor], which is truthy).  The definitions above take the names
    that are looked up to be names of none of those members, as every
    DOM 3 key identifier and the ids of a page normally are.  The
    definitions below are the same statements of the source for any name,
    with the failing cases of [makeHandler] and of the IE branch of
    [handler.register] that the definitions above leave out. *)

(** The members that [Object.prototype] has in every browser (ECMAScript,
    third edition, 15.2.4). *)
Definition standard_members (name : string) : bool :=
  bool_decide (name ∈ ["constructor"; "toString"; "toLocaleString";
                       "valueOf"; "hasOwnProperty"; "isPrototypeOf";
                       "propertyIsEnumerable"]).

(** What stands first in the array [key] of [cancel] and [monitor]: a
    number, or the member of [Object.prototype] of a given name. *)
Inductive jsvalue :=
  | num (n : Z)
  | member (name : string).

Definition truthy_value (v : jsvalue) : bool :=
  match v with
  | num n => truthy_number n
  | member _ => true
  end.

(** The array [key] for any key identifier. *)
Definition jskey : Type := jsvalue * bool * bool * bool.

(** A keyspec as such an array. *)
Definition chord (i : keyspec) : jskey :=
  let '(code, ctrl, shift, alt) := i in (num code, ctrl, shift, alt).

(** What a handler lookup on [handlers] gives back. *)
Inductive answer :=
  | instance (h : handler)
  | inherited_member (name : string)
  | thrown.

(** The two builds of the module: [lib] made from Prototype or from
    jQuery (lines 167 to 227). *)
Inductive framework :=
  | Prototype
  | jQuery.

Section Inherited.

(** The names of the members of [Object.prototype] in the browser at
    hand. *)
Variable inherited : string → bool.

(** [safariTranslator[event.keyIdentifier]]: an own entry, else an
    inherited member, else [undefined]. *)
Definition safariTranslator_get (identifier : option string)
  : option jsvalue :=
  id ← identifier;
  match safariTranslator !! id with
  | Some code => Some (num code)
  | None => if inherited id then Some (member id) else None
  end.

(** The first statement of [cancel] (lines 424 to 428), for any key
    identifier. *)
Definition cancel_key_js (lib : library) (ev : event) : jskey :=
  match safariTranslator_get (keyIdentifier ev) with
  | Some v =>
      if webkit lib && truthy_opt truthy_string (keyIdentifier ev)
         && truthy_value v
      then (v, ctrlKey ev, shiftKey ev, altKey ev)
      else (num (keyCode ev), ctrlKey ev, shiftKey ev, altKey ev)
  | None => (num (keyCode ev), ctrlKey ev, shiftKey ev, altKey ev)
  end.

(** The first statement of [monitor] (lines 454 to 458), for any key
    identifier. *)
Definition monitor_key_js (lib : library) (ev : event) : jskey :=
  match safariTranslator_get (keyIdentifier ev) with
  | Some v =>
      if webkit lib && truthy_opt truthy_string (keyIdentifier ev)
         && truthy_value v
      then (v, ctrlKey ev, shiftKey ev, altKey ev)
      else (num (keyCode ev), ctrlKey ev, shiftKey ev, altKey ev)
  | None => (num (keyCode ev), ctrlKey ev, shiftKey ev, altKey ev)
  end.

(** [makeHandler(element)] with its failing case: for the document the
    target is [document.body], and where that does not exist yet reading
    [target.tabIndex] (line 500) throws, after both observers were set up
    and before an instance is made.  An element given by its id is an
    element of the page, as everywhere in this file. *)
Definition makeHandler_js (body_exists : bool) (e : element)
  : option handler * list effect :=
  match e with
  | document =>
      if body_exists then (Some (makeHandler e).1, (makeHandler e).2)
      else (None, [observe e "keydown"; observe e "keyup"])
  | byId _ => (Some (makeHandler e).1, (makeHandler e).2)
  end.

(** [Keyboard.handlerFor(element)] for any id: [handlers[id]] of an id
    that names an inherited member is that member, which is truthy, so
    that no instance is made and the member is given back. *)
Definition handlerFor_js (w : world) (e : element)
  : world * answer * list effect :=
  match handlers w !! e with
  | Some h => (w, instance h, [])
  | None =>
      match e with
      | byId id =>
          if inherited id then (w, inherited_member id, [])
          else
            match makeHandler_js (loaded w) e with
            | (Some h, fx) => (set_handler w e h, instance h, fx)
            | (None, fx) => (w, thrown, fx)
            end
      | document =>
          match makeHandler_js (loaded w) e with
          | (Some h, fx) => (set_handler w e h, instance h, fx)
          | (None, fx) => (w, thrown, fx)
          end
      end
  end.

End Inherited.

(** [handler.register] in a given build: the instance afterwards, what was
    done, and whether the call threw.  The IE branch sets the style of
    the new element with [Element.setStyle] of Prototype (line 564), not
    with [lib.setStyle]: in the jQuery build that call throws, after
    [keys[index]] was written (line 546) and before the element is
    appended (line 572). *)
Definition register_js (fw : framework) (lib : library) (h : handler)
    (key : Z) (m : method) (override : bool)
  : handler * list effect * bool :=
  let '(h', fx) := register lib h key m override in
  match fw with
  | Prototype => (h', fx, false)
  | jQuery =>
      if msie lib && accepted fx
         && isAccessKey (index_of key).1.1.1 (index_of key).2
      then (h', [], true)
      else (h', fx, false)
  end.

(** * Properties *)

(** The two tables are looked up by computation only, and the texts are
    not unfolded by simplification. *)
Global Opaque broken safariTranslator.
Arguments property : simpl never.
Arguments broken_alert : simpl never.
Arguments mapped_alert : simpl never.

(** ** The tables *)

(** A decidable property of every entry of a table, settled by running
    through the table. *)
Ltac by_table := apply (bool_decide_unpack _); vm_compute; reflexivity.

(** Every text of [broken] is truthy: the check [broken[key]] finds every
    entry. *)
Lemma broken_texts_truthy :
  map_Forall (λ _ text, truthy_string text = true) broken.
Proof. by_table. Qed.

(** No entry of [broken] has the secondary umlaut code as its key code. *)
Lemma broken_no_secondary :
  map_Forall (λ k _, Z.land k KEYMASK ≠ KEY.UMLAUT_2) broken.
Proof. by_table. Qed.

(** Every entry of the translator has a truthy identifier and a truthy
    code. *)
Lemma safariTranslator_truthy :
  map_Forall (λ id code, truthy_string id = true ∧ truthy_number code = true)
             safariTranslator.
Proof. by_table. Qed.


Example broken_size : size broken = 93%nat.
Proof. vm_compute. reflexivity. Qed.

(** ** Property names identify keyspecs *)

Lemma pretty_N_go_comma_free (x : N) (s : string) :
  comma_free s = true → comma_free (pretty_N_go x s) = true.
Proof.
  revert s. induction (N.lt_wf_0 x) as [x _ IH]; intros s Hs.
  destruct (decide (x = 0%N)) as [->|Hx].
  - by rewrite pretty_N_go_0.
  - rewrite pretty_N_go_step by lia.
    apply IH; [apply N.div_lt; lia|].
    simpl. rewrite Hs, andb_true_r.
    unfold pretty_N_char. by repeat case_match.
Qed.

Lemma pretty_Z_comma_free (k : Z) : comma_free (pretty k) = true.
Proof.
  assert (∀ p : positive, comma_free (pretty p) = true) as Hpos.
  { intros p. unfold pretty, pretty_positive, pretty, pretty_N.
    case_decide; [done|]. by apply pretty_N_go_comma_free. }
  destruct k as [|p|p]; [done|apply Hpos|].
  change (pretty (Z.neg p)) with ("-" +:+ pretty p). simpl. apply Hpos.
Qed.

Lemma append_comma_inj (s1 s2 t1 t2 : string) :
  comma_free s1 = true → comma_free s2 = true →
  s1 +:+ "," +:+ t1 = s2 +:+ "," +:+ t2 → s1 = s2 ∧ t1 = t2.
Proof.
  revert s2.
  induction s1 as [|a s1 IH]; intros [|b s2]; simpl; intros H1 H2 Heq.
  - by simplify_eq.
  - by simplify_eq.
  - by simplify_eq.
  - apply andb_true_iff in H1 as [_ H1]. apply andb_true_iff in H2 as [_ H2].
    injection Heq as -> Heq. by destruct (IH s2 H1 H2 Heq) as [-> ->].
Qed.

Lemma string_of_bool_comma_free (b : bool) :
  comma_free (string_of_bool b) = true.
Proof. by destruct b. Qed.

Create HintDb keyspec.
#[local] Hint Resolve pretty_Z_comma_free string_of_bool_comma_free : keyspec.

Lemma string_of_bool_inj (b1 b2 : bool) :
  string_of_bool b1 = string_of_bool b2 → b1 = b2.
Proof. by destruct b1, b2. Qed.

(** Two keyspecs with the same property name are the same keyspec: [keys]
    is a map from keyspecs. *)
Lemma property_inj (i j : keyspec) : property i = property j → i = j.
Proof.
  destruct i as [[[k1 c1] s1] a1], j as [[[k2 c2] s2] a2]. unfold property.
  intros H.
  apply append_comma_inj in H as [Hk H]; auto with keyspec.
  apply append_comma_inj in H as [Hc H]; auto with keyspec.
  apply append_comma_inj in H as [Hs Ha]; auto with keyspec.
  apply (inj pretty) in Hk. apply string_of_bool_inj in Hc, Hs, Ha. by subst.
Qed.
(** ** Chord normalisation *)

Lemma cancel_key_normalize (lib : library) (ev : event) :
  cancel_key lib ev = normalize lib ev.
Proof.
  unfold cancel_key, normalize.
  destruct (keyIdentifier ev) as [id|]; simpl; [|by destruct (webkit lib)].
  destruct (safariTranslator !! id) as [code|] eqn:Hid;
    [|by destruct (webkit lib)].
  destruct (safariTranslator_truthy id code Hid) as [-> ->].
  by destruct (webkit lib).
Qed.

Lemma monitor_key_normalize (lib : library) (ev : event) :
  monitor_key lib ev = normalize lib ev.
Proof.
  unfold monitor_key, normalize.
  destruct (keyIdentifier ev) as [id|]; simpl; [|by destruct (webkit lib)].
  destruct (safariTranslator !! id) as [code|] eqn:Hid;
    [|by destruct (webkit lib)].
  destruct (safariTranslator_truthy id code Hid) as [-> ->].
  by destruct (webkit lib).
Qed.

Lemma cancel_unbound (lib : library) (keys : gmap string method) (ev : event) :
  keys !! property (normalize lib ev) = None → cancel lib keys ev = (ev, []).
Proof. intros H. unfold cancel. by rewrite cancel_key_normalize, H. Qed.

Lemma monitor_unbound (invoke : fname → object → event → world → world)
    (lib : library) (keys : gmap string method) (ev : event) (w : world) :
  keys !! property (normalize lib ev) = None →
  monitor invoke lib keys ev w = (w, ev, []).
Proof. intros H. unfold monitor. by rewrite monitor_key_normalize, H. Qed.



Lemma cancel_key_js_chord (inherited : string → bool) (lib : library)
    (ev : event) :
  (∀ id, keyIdentifier ev = Some id → inherited id = false) →
  cancel_key_js inherited lib ev = chord (normalize lib ev).
Proof.
  intros Hid. unfold cancel_key_js, safariTranslator_get, normalize, chord.
  destruct (keyIdentifier ev) as [id|]; simpl; [|by destruct (webkit lib)].
  rewrite (Hid id eq_refl).
  destruct (safariTranslator !! id) as [code|] eqn:Hcode;
    [|by destruct (webkit lib)].
  destruct (safariTranslator_truthy id code Hcode) as [Ht Hc].
  simpl. rewrite Ht, Hc. by destruct (webkit lib).
Qed.

Lemma monitor_key_js_chord (inherited : string → bool) (lib : library)
    (ev : event) :
  (∀ id, keyIdentifier ev = Some id → inherited id = false) →
  monitor_key_js inherited lib ev = chord (normalize lib ev).
Proof.
  intros Hid. unfold monitor_key_js, safariTranslator_get, normalize, chord.
  destruct (keyIdentifier ev) as [id|]; simpl; [|by destruct (webkit lib)].
  rewrite (Hid id eq_refl).
  destruct (safariTranslator !! id) as [code|] eqn:Hcode;
    [|by destruct (webkit lib)].
  destruct (safariTranslator_truthy id code Hcode) as [Ht Hc].
  simpl. rewrite Ht, Hc. by destruct (webkit lib).
Qed.

(** C6, as the code has it: the translator is a plain object read without
    an own-property test, so the rule holds for the events whose key
    identifier names no member inherited from [Object.prototype] (every
    DOM 3 identifier).  For such an event, in any browser, the [key] that
    [cancel] computes and the [key] that [monitor] computes are both the
    normalised chord of the specification: the translated code if the
    browser is WebKit and the identifier is in the translation table, the
    raw key code in every other case.  The computation has no failing
    case, the two handlers compute the same array for every event
    whatever its identifier, and the chord is a code with the three flags
    of the event. *)
Theorem chord_normalization (inherited : string → bool) (lib : library)
    (ev : event) :
  (∀ id, keyIdentifier ev = Some id → inherited id = false) →
  cancel_key_js inherited lib ev = chord (normalize lib ev) ∧
  monitor_key_js inherited lib ev = chord (normalize lib ev) ∧
  cancel_key lib ev = normalize lib ev ∧
  monitor_key lib ev = normalize lib ev ∧
  (∀ ev', cancel_key_js inherited lib ev' = monitor_key_js inherited lib ev') ∧
  ∃ code, normalize lib ev = (code, ctrlKey ev, shiftKey ev, altKey ev).
Proof.
  intros Hid. split_and!.
  - by apply cancel_key_js_chord.
  - by apply monitor_key_js_chord.
  - apply cancel_key_normalize.
  - apply monitor_key_normalize.
  - done.
  - unfold normalize. eauto.
Qed.

Lemma chord_normalization_witness :
  cancel_key_js standard_members safari euro = chord (normalize safari euro) ∧
  monitor_key_js standard_members safari euro = chord (normalize safari euro) ∧
  cancel_key safari euro = normalize safari euro ∧
  monitor_key safari euro = normalize safari euro ∧
  (∀ ev', cancel_key_js standard_members safari ev'
          = monitor_key_js standard_members safari ev') ∧
  ∃ code, normalize safari euro
          = (code, ctrlKey euro, shiftKey euro, altKey euro).
Proof.
  apply (chord_normalization standard_members safari euro).
  intros id [= <-]. vm_compute. reflexivity.
Defined.

(** C6 as the claim has it fails: on WebKit, for an event with the key
    code 70 and the key identifier [constructor], which is not in the
    translation table, the first element of [key] is not the raw key code
    but the member [constructor] that the table inherits. *)
Lemma inherited_identifier_not_raw_code :
  safariTranslator !! "constructor" = None ∧
  cancel_key_js standard_members safari
    (key_event KEY.F (Some "constructor") false false false body)
  = (member "constructor", false, false, false) ∧
  monitor_key_js standard_members safari
    (key_event KEY.F (Some "constructor") false false false body)
  = (member "constructor", false, false, false) ∧
  cancel_key_js standard_members safari
    (key_event KEY.F (Some "constructor") false false false body)
  ≠ (num KEY.F, false, false, false).
Proof. vm_compute. by split_and!. Qed.

(** C7: a key-up event whose normalised chord is not bound for the element
    it is delivered to leaves the state of the factory (every registry in
    it) as it was, calls nothing, and leaves the event as it was, its
    default action not prevented; so does such a key-down event. *)
Theorem unbound_key_event_ignored
    (invoke : fname → object → event → world → world) (lib : library)
    (w : world) (e : element) (ev : event) :
  lookup_key w e (normalize lib ev) = None →
  keyup invoke lib w e ev = (w, ev, []) ∧ keydown lib w e ev = (ev, []).
Proof.
  unfold lookup_key, keyup, keydown. intros H.
  destruct (handlers w !! e) as [h|]; simpl in H; [|done].
  by rewrite monitor_unbound, cancel_unbound.
Qed.

Lemma unbound_key_event_ignored_witness :
  keyup no_effect gecko
        (Keyboard.register gecko (startup true) myDiv KEY.A
                           (Callback "cb") false).1
        myDiv (key_event KEY.B None false false false (node myDiv))
  = ((Keyboard.register gecko (startup true) myDiv KEY.A
                        (Callback "cb") false).1,
     key_event KEY.B None false false false (node myDiv), []) ∧
  keydown gecko
          (Keyboard.register gecko (startup true) myDiv KEY.A
                             (Callback "cb") false).1
          myDiv (key_event KEY.B None false false false (node myDiv))
  = (key_event KEY.B None false false false (node myDiv), []).
Proof.
  apply (unbound_key_event_ignored no_effect gecko
           (Keyboard.register gecko (startup true) myDiv KEY.A
                              (Callback "cb") false).1
           myDiv (key_event KEY.B None false false false (node myDiv))).
  vm_compute. reflexivity.
Defined.



(** ** The three ways out of [handler.register] *)

Lemma register_broken (lib : library) (h : handler) (key : Z) (m : method)
    (text : string) :
  broken !! key = Some text →
  register lib h key m false = (h, [alert (broken_alert text)]).
Proof.
  intros H. unfold register. rewrite H. simpl.
  by rewrite (broken_texts_truthy key text H).
Qed.

Lemma register_passes_check (key : Z) (override : bool) :
  override = true ∨ broken !! key = None →
  truthy_opt truthy_string (broken !! key) && negb override = false.
Proof. intros [->| ->]; [apply andb_false_r|done]. Qed.

Lemma register_mapped (lib : library) (h : handler) (key : Z) (m b : method)
    (override : bool) :
  override = true ∨ broken !! key = None →
  keys h !! property (index_of key) = Some b →
  register lib h key m override = (h, [alert (mapped_alert (index_of key))]).
Proof.
  intros Hpass Hb. unfold register. rewrite register_passes_check by done.
  fold (index_of key). destruct (index_of key) as [[[code ctrl] shift] alt].
  by rewrite Hb.
Qed.

Lemma register_stored (lib : library) (h : handler) (key : Z) (m : method)
    (override : bool) :
  override = true ∨ broken !! key = None →
  keys h !! property (index_of key) = None →
  ∃ fx, register lib h key m override = (bound h (index_of key) m, fx) ∧
        accepted fx = true.
Proof.
  intros Hpass Hb. unfold register, bound. rewrite register_passes_check by done.
  fold (index_of key). destruct (index_of key) as [[[code ctrl] shift] alt].
  rewrite Hb. simpl. eexists. split; [done|]. by case_match.
Qed.

(** A registration that raised no alert passed the check for broken keys
    and found its index free. *)
Lemma register_accepted (lib : library) (h : handler) (key : Z) (m : method)
    (override : bool) :
  accepted (register lib h key m override).2 = true →
  (override = true ∨ broken !! key = None) ∧
  keys h !! property (index_of key) = None.
Proof.
  intros Hacc.
  destruct (broken !! key) as [text|] eqn:Hbr, override eqn:Hov;
    try (by rewrite (register_broken _ _ _ _ text) in Hacc).
  all: destruct (keys h !! property (index_of key)) as [b|] eqn:Hb; [|auto].
  all: rewrite (register_mapped _ _ _ _ b) in Hacc; auto; done.
Qed.

Lemma register_accepted_bound (lib : library) (h : handler) (key : Z)
    (m : method) (override : bool) :
  accepted (register lib h key m override).2 = true →
  (register lib h key m override).1 = bound h (index_of key) m.
Proof.
  intros [Hpass Hfree]%register_accepted.
  by destruct (register_stored lib h key m override Hpass Hfree) as (fx & -> & _).
Qed.

Lemma bound_lookup (h : handler) (i : keyspec) (m : method) :
  keys (bound h i m) !! property i = Some m.
Proof.
  unfold bound; simpl. case_match.
  - destruct (decide (property (KEY.UMLAUT_2, i.1.1.2, i.1.2, i.2) = property i))
      as [->|Hne]; [by rewrite lookup_insert_eq|].
    by rewrite lookup_insert_ne, lookup_insert_eq.
  - by rewrite lookup_insert_eq.
Qed.

Lemma bound_lookup_alias (h : handler) (ctrl shift alt : bool) (m : method) :
  keys (bound h (KEY.UMLAUT, ctrl, shift, alt) m)
    !! property (KEY.UMLAUT_2, ctrl, shift, alt) = Some m.
Proof. unfold bound; simpl. by rewrite lookup_insert_eq. Qed.

Lemma bound_lookup_other (h : handler) (i j : keyspec) (m : method) :
  j ≠ i → (i.1.1.1 = KEY.UMLAUT → j ≠ (KEY.UMLAUT_2, i.1.1.2, i.1.2, i.2)) →
  keys (bound h i m) !! property j = keys h !! property j.
Proof.
  intros Hi Halias. unfold bound; simpl.
  assert (property i ≠ property j) by (intros ?%property_inj; by subst).
  destruct (i.1.1.1 =? KEY.UMLAUT) eqn:Hu.
  - apply Z.eqb_eq in Hu.
    rewrite lookup_insert_ne, lookup_insert_ne; [done..|].
    intros ?%property_inj. by apply Halias.
  - by rewrite lookup_insert_ne.
Qed.

(** ** The index of a key specification *)

Lemma index_of_nonzero (key : Z) :
  Z.land key KEYMASK ≠ 0 → index_of key = decode key.
Proof.
  intros H. unfold index_of, solitary, decode; simpl.
  by apply Z.eqb_neq in H as ->.
Qed.

Lemma index_of_decoded (key code : Z) (ctrl shift alt : bool) :
  decode key = (code, ctrl, shift, alt) → code ≠ 0 →
  index_of key = (code, ctrl, shift, alt).
Proof.
  intros Hd Hc. rewrite index_of_nonzero; [done|].
  unfold decode in Hd. by simplify_eq.
Qed.

(** The single integer of a base code and three flags decodes to them. *)
Lemma decode_encoded (code : Z) (ctrl shift alt : bool) :
  0 ≤ code ≤ 255 →
  decode (code + (if ctrl then KEY.CTRL else 0)
               + (if shift then KEY.SHIFT else 0)
               + (if alt then KEY.ALT else 0))
  = (code, ctrl, shift, alt).
Proof.
  intros Hc.
  assert (Forall (λ code, ∀ ctrl shift alt : bool,
            decode (code + (if ctrl then KEY.CTRL else 0)
                         + (if shift then KEY.SHIFT else 0)
                         + (if alt then KEY.ALT else 0))
            = (code, ctrl, shift, alt)) (seqZ 0 256)) as Hall.
  { by_table. }
  rewrite Forall_forall in Hall. apply Hall, elem_of_seqZ. lia.
Qed.

(** ** Registration *)

(** C2: when the index of a key specification is already bound to [b] in a
    handler instance, a further [register] of that specification with any
    method [b2] and either value of [override] (for [override = false]: the
    specification is not in the table of broken keys, so that the check for
    mapped keys is reached) raises the "already mapped" alert, stores
    nothing, and the index still leads to [b]. *)
Theorem register_mapped_conflict (lib : library) (h : handler) (key : Z)
    (b b2 : method) (override : bool) :
  keys h !! property (index_of key) = Some b →
  override = true ∨ broken !! key = None →
  register lib h key b2 override = (h, [alert (mapped_alert (index_of key))]) ∧
  keys (register lib h key b2 override).1 !! property (index_of key) = Some b.
Proof.
  intros Hb Hpass. rewrite (register_mapped _ _ _ _ b) by done. done.
Qed.

Lemma register_mapped_conflict_witness :
  register gecko (bound (empty_handler document) (KEY.A, false, false, false)
                        (Callback "first"))
           KEY.A (Callback "second") false
  = (bound (empty_handler document) (KEY.A, false, false, false)
           (Callback "first"),
     [alert "Key 65 (ctrl=false, shift=false, alt=false) already mapped!"]) ∧
  keys (register gecko
          (bound (empty_handler document) (KEY.A, false, false, false)
                 (Callback "first"))
          KEY.A (Callback "second") false).1
    !! property (index_of KEY.A) = Some (Callback "first").
Proof.
  apply (register_mapped_conflict gecko
           (bound (empty_handler document) (KEY.A, false, false, false)
                  (Callback "first"))
           KEY.A (Callback "first") (Callback "second") false).
  - vm_compute. reflexivity.
  - right. vm_compute. reflexivity.
Defined.

(** The same for two calls in a row: when the first went through, the
    second raises the alert and the first method stays. *)
Lemma register_twice (lib : library) (h : handler) (key : Z) (b b2 : method)
    (override override2 : bool) :
  accepted (register lib h key b override).2 = true →
  override2 = true ∨ broken !! key = None →
  register lib (register lib h key b override).1 key b2 override2
  = ((register lib h key b override).1,
     [alert (mapped_alert (index_of key))]) ∧
  keys (register lib h key b override).1 !! property (index_of key) = Some b.
Proof.
  intros Hacc Hpass. rewrite register_accepted_bound by done.
  pose proof (bound_lookup h (index_of key) b) as Hb.
  by rewrite (register_mapped _ _ _ _ b).
Qed.



(** C4: one registration that went through and whose key specification
    decodes to the umlaut key 59 with flags [ctrl], [shift], [alt] (any of
    the eight combinations) binds both that keyspec and the one with code
    186 and the same flags to the method. *)
Theorem umlaut_registers_alias (lib : library) (h : handler) (key : Z)
    (m : method) (override ctrl shift alt : bool) :
  decode key = (KEY.UMLAUT, ctrl, shift, alt) →
  accepted (register lib h key m override).2 = true →
  keys (register lib h key m override).1
    !! property (KEY.UMLAUT, ctrl, shift, alt) = Some m ∧
  keys (register lib h key m override).1
    !! property (KEY.UMLAUT_2, ctrl, shift, alt) = Some m.
Proof.
  intros Hd Hacc. rewrite register_accepted_bound by done.
  rewrite (index_of_decoded _ _ _ _ _ Hd) by done.
  by rewrite bound_lookup, bound_lookup_alias.
Qed.

Lemma umlaut_registers_alias_witness :
  keys (register gecko (empty_handler document)
                 (KEY.CTRL + KEY.SHIFT + KEY.UMLAUT) (Callback "cb") false).1
    !! property (KEY.UMLAUT, true, true, false) = Some (Callback "cb") ∧
  keys (register gecko (empty_handler document)
                 (KEY.CTRL + KEY.SHIFT + KEY.UMLAUT) (Callback "cb") false).1
    !! property (KEY.UMLAUT_2, true, true, false) = Some (Callback "cb").
Proof.
  apply (umlaut_registers_alias gecko (empty_handler document)
           (KEY.CTRL + KEY.SHIFT + KEY.UMLAUT) (Callback "cb")
           false true true false).
  - vm_compute. reflexivity.
  - vm_compute. reflexivity.
Defined.

(** Every combination of flags is reached: the specification that adds
    the weights of the flags to 59, registered with override on an
    instance where its index is free, binds both codes. *)
Lemma umlaut_alias_every_combination (lib : library) (h : handler)
    (m : method) (ctrl shift alt : bool) :
  keys h !! property (KEY.UMLAUT, ctrl, shift, alt) = None →
  keys (register lib h
          (KEY.UMLAUT + (if ctrl then KEY.CTRL else 0)
                      + (if shift then KEY.SHIFT else 0)
                      + (if alt then KEY.ALT else 0)) m true).1
    !! property (KEY.UMLAUT, ctrl, shift, alt) = Some m ∧
  keys (register lib h
          (KEY.UMLAUT + (if ctrl then KEY.CTRL else 0)
                      + (if shift then KEY.SHIFT else 0)
                      + (if alt then KEY.ALT else 0)) m true).1
    !! property (KEY.UMLAUT_2, ctrl, shift, alt) = Some m.
Proof.
  intros Hfree.
  pose proof (decode_encoded KEY.UMLAUT ctrl shift alt) as Hd.
  pose proof (index_of_decoded _ KEY.UMLAUT ctrl shift alt (Hd ltac:(done)))
    as Hidx.
  rewrite <-Hidx in Hfree by done.
  destruct (register_stored lib h _ m true (or_introl eq_refl) Hfree)
    as (fx & -> & _).
  cbn [fst]. rewrite Hidx by done. by rewrite bound_lookup, bound_lookup_alias.
Qed.

(** C5, as the code has it: the alias goes one way.  A key specification
    whose base code is the secondary code 186 is not in the table of
    broken keys, whatever its flags, so it is never refused as broken:
    with or without override, where its index is free the registration
    goes through and binds that index, and where its index is bound the
    alert is the one for a mapped key; and it leaves every keyspec of the
    primary code 59 as it was.  A registration of the primary code that
    went through binds the keyspecs of both codes, so that an event with
    either code reaches the method. *)
Theorem umlaut_alias_one_way (lib : library) (h : handler) (key : Z)
    (m : method) (override ctrl shift alt : bool) :
  (decode key = (KEY.UMLAUT_2, ctrl, shift, alt) →
   broken !! key = None ∧
   (keys h !! property (KEY.UMLAUT_2, ctrl, shift, alt) = None →
    accepted (register lib h key m override).2 = true ∧
    keys (register lib h key m override).1
      !! property (KEY.UMLAUT_2, ctrl, shift, alt) = Some m) ∧
   (is_Some (keys h !! property (KEY.UMLAUT_2, ctrl, shift, alt)) →
    register lib h key m override
    = (h, [alert (mapped_alert (KEY.UMLAUT_2, ctrl, shift, alt))])) ∧
   ∀ c s a : bool,
     keys (register lib h key m override).1 !! property (KEY.UMLAUT, c, s, a)
     = keys h !! property (KEY.UMLAUT, c, s, a)) ∧
  (decode key = (KEY.UMLAUT, ctrl, shift, alt) →
   accepted (register lib h key m override).2 = true →
   keys (register lib h key m override).1
     !! property (KEY.UMLAUT, ctrl, shift, alt) = Some m ∧
   keys (register lib h key m override).1
     !! property (KEY.UMLAUT_2, ctrl, shift, alt) = Some m).
Proof.
  split.
  - intros Hd.
    assert (broken !! key = None) as Hbr.
    { destruct (broken !! key) as [text|] eqn:Hbr; [|done].
      destruct (broken_no_secondary key text Hbr).
      unfold decode in Hd. by simplify_eq. }
    pose proof (index_of_decoded _ _ _ _ _ Hd ltac:(done)) as Hidx.
    split_and!; [done|..].
    + intros Hfree. rewrite <-Hidx in Hfree |- *.
      destruct (register_stored lib h key m override) as (fx & -> & Hfx);
        auto.
      cbn [fst snd]. by rewrite bound_lookup.
    + intros [b Hb]. rewrite <-Hidx in Hb |- *.
      by apply (register_mapped _ _ _ _ b); auto.
    + intros c s a.
      destruct (keys h !! property (index_of key)) as [b|] eqn:Hb.
      * by rewrite (register_mapped _ _ _ _ b) by auto.
      * destruct (register_stored lib h key m override) as (fx & -> & _);
          auto.
        cbn [fst]. rewrite Hidx. by apply bound_lookup_other.
  - intros Hd Hacc. rewrite register_accepted_bound by done.
    rewrite (index_of_decoded _ _ _ _ _ Hd) by done.
    by rewrite bound_lookup, bound_lookup_alias.
Qed.

Lemma umlaut_alias_one_way_witness :
  (broken !! (KEY.CTRL + KEY.UMLAUT_2) = None ∧
   accepted (register gecko (empty_handler document) (KEY.CTRL + KEY.UMLAUT_2)
                      (Callback "cb") false).2 = true ∧
   keys (register gecko (empty_handler document) (KEY.CTRL + KEY.UMLAUT_2)
                  (Callback "cb") false).1
     !! property (KEY.UMLAUT_2, true, false, false) = Some (Callback "cb") ∧
   ∀ c s a : bool,
     keys (register gecko (empty_handler document) (KEY.CTRL + KEY.UMLAUT_2)
                    (Callback "cb") false).1 !! property (KEY.UMLAUT, c, s, a)
     = keys (empty_handler document) !! property (KEY.UMLAUT, c, s, a)) ∧
  keys (register gecko (empty_handler document) KEY.UMLAUT
                 (Callback "cb") true).1
    !! property (KEY.UMLAUT, false, false, false) = Some (Callback "cb") ∧
  keys (register gecko (empty_handler document) KEY.UMLAUT
                 (Callback "cb") true).1
    !! property (KEY.UMLAUT_2, false, false, false) = Some (Callback "cb").
Proof.
  split.
  - destruct (umlaut_alias_one_way gecko (empty_handler document)
                (KEY.CTRL + KEY.UMLAUT_2) (Callback "cb") false
                true false false) as [H186 _].
    destruct H186 as (Hbr & Hfree & _ & Hkeep); [vm_compute; reflexivity|].
    destruct Hfree as [Hacc Hb]; [vm_compute; reflexivity|].
    by split_and!.
  - apply (umlaut_alias_one_way gecko (empty_handler document) KEY.UMLAUT
             (Callback "cb") true false false false).
    + vm_compute. reflexivity.
    + vm_compute. reflexivity.
Defined.

(** C5 as the claim has it fails: without override, the primary code 59 is
    refused as broken and the secondary code 186 is registered; after
    that, the keyspec of code 59 is still unbound and a key-down event
    with code 59 is not cancelled. *)
Lemma umlaut_secondary_code_not_alias :
  accepted (register gecko (empty_handler document) KEY.UMLAUT
                     (Callback "cb") false).2 = false ∧
  accepted (register gecko (empty_handler document) KEY.UMLAUT_2
                     (Callback "cb") false).2 = true ∧
  keys (register gecko (empty_handler document) KEY.UMLAUT_2
                 (Callback "cb") false).1
    !! property (KEY.UMLAUT_2, false, false, false) = Some (Callback "cb") ∧
  keys (register gecko (empty_handler document) KEY.UMLAUT_2
                 (Callback "cb") false).1
    !! property (KEY.UMLAUT, false, false, false) = None ∧
  cancel gecko
         (keys (register gecko (empty_handler document) KEY.UMLAUT_2
                         (Callback "cb") false).1)
         (key_event KEY.UMLAUT None false false false body)
  = (key_event KEY.UMLAUT None false false false body, []).
Proof. vm_compute. by split_and!. Qed.

(** C9, as the code has it: [register] itself raises the alert on both
    ways out that store nothing, and gives no error value back.  For a
    key specification of the table of broken keys without override, the
    call raises the alert of the table's text and leaves the instance as
    it was.  Otherwise, where the index is bound, the call raises the
    alert of the index and leaves the instance as it was.  Otherwise the
    call raises no alert and binds the index to the method. *)
Theorem register_alerts_and_returns (lib : library) (h : handler) (key : Z)
    (m : method) (override : bool) :
  (∀ text, broken !! key = Some text → override = false →
           register lib h key m override
           = (h, [alert (broken_alert text)])) ∧
  (override = true ∨ broken !! key = None →
   is_Some (keys h !! property (index_of key)) →
   register lib h key m override
   = (h, [alert (mapped_alert (index_of key))])) ∧
  (override = true ∨ broken !! key = None →
   keys h !! property (index_of key) = None →
   accepted (register lib h key m override).2 = true ∧
   keys (register lib h key m override).1 !! property (index_of key)
   = Some m).
Proof.
  split_and!.
  - intros text Hbr ->. by apply register_broken.
  - intros Hpass [b Hb]. by apply (register_mapped _ _ _ _ b).
  - intros Hpass Hfree.
    destruct (register_stored lib h key m override) as (fx & -> & Hfx); auto.
    cbn [fst snd]. by rewrite bound_lookup.
Qed.

Lemma register_alerts_and_returns_witness :
  register explorer (empty_handler myDiv) (KEY.ALT + KEY.F4)
           (Callback "cb") false
  = (empty_handler myDiv,
     [alert (broken_alert
               "Alt+F4 is unmappable in Win-all (close browser)")]) ∧
  register explorer
           (bound (empty_handler myDiv) (KEY.F4, false, false, true)
                  (Callback "first"))
           (KEY.ALT + KEY.F4) (Callback "cb") true
  = (bound (empty_handler myDiv) (KEY.F4, false, false, true)
           (Callback "first"),
     [alert (mapped_alert (index_of (KEY.ALT + KEY.F4)))]) ∧
  accepted (register explorer (empty_handler myDiv) (KEY.ALT + KEY.F4)
                     (Callback "cb") true).2 = true ∧
  keys (register explorer (empty_handler myDiv) (KEY.ALT + KEY.F4)
                 (Callback "cb") true).1
    !! property (index_of (KEY.ALT + KEY.F4)) = Some (Callback "cb").
Proof.
  split; [|split].
  - destruct (register_alerts_and_returns explorer (empty_handler myDiv)
                (KEY.ALT + KEY.F4) (Callback "cb") false) as (Hbroken & _ & _).
    apply Hbroken.
    + vm_compute. reflexivity.
    + reflexivity.
  - destruct (register_alerts_and_returns explorer
                (bound (empty_handler myDiv) (KEY.F4, false, false, true)
                       (Callback "first"))
                (KEY.ALT + KEY.F4) (Callback "cb") true) as (_ & Hmapped & _).
    apply Hmapped.
    + by left.
    + vm_compute. eauto.
  - destruct (register_alerts_and_returns explorer (empty_handler myDiv)
                (KEY.ALT + KEY.F4) (Callback "cb") true) as (_ & _ & Hstored).
    apply Hstored.
    + by left.
    + vm_compute. reflexivity.
Defined.

(** C9 as the claim has it fails: the call of [register] raises the alert
    itself, for a broken key and for a mapped key. *)
Lemma register_performs_alert :
  (register gecko (empty_handler document) (KEY.CTRL + KEY.F)
            (Callback "cb") false).2
  = [alert (broken_alert "Ctrl+F is unmappable in Win-IE7, WIn-Safari3 (find)")] ∧
  (register gecko
            (bound (empty_handler document) (KEY.A, false, false, false)
                   (Callback "first"))
            KEY.A (Callback "second") false).2
  = [alert "Key 65 (ctrl=false, shift=false, alt=false) already mapped!"].
Proof. vm_compute. split; reflexivity. Qed.

(** C10: a registration that went through for the specification 256, 512
    or 1024 stores the method under [17,false,false,false],
    [16,false,false,false] or [18,false,false,false]; for any other
    specification whose low eight bits are zero it stores the method under
    code 0 with the flags of the specification.  (1024 is itself in the
    table of broken keys: its registration goes through with override
    only.) *)
Theorem solitary_modifier_index (lib : library) (h : handler) (key : Z)
    (m : method) (override : bool) :
  accepted (register lib h key m override).2 = true →
  (key = 256 →
   keys (register lib h key m override).1
   = <[property (17, false, false, false) := m]> (keys h)) ∧
  (key = 512 →
   keys (register lib h key m override).1
   = <[property (16, false, false, false) := m]> (keys h)) ∧
  (key = 1024 →
   keys (register lib h key m override).1
   = <[property (18, false, false, false) := m]> (keys h)) ∧
  (Z.land key 255 = 0 → key ≠ 256 → key ≠ 512 → key ≠ 1024 →
   keys (register lib h key m override).1
   = <[property (0, truthy_number (Z.land key 256),
                 truthy_number (Z.land key 512),
                 truthy_number (Z.land key 1024)) := m]> (keys h)).
Proof.
  intros Hacc. rewrite register_accepted_bound by done.
  split; [|split; [|split]].
  - by intros ->.
  - by intros ->.
  - by intros ->.
  - intros Hlow H1 H2 H3. unfold index_of, solitary, decode, bound.
    unfold KEYMASK, KEY.CTRL, KEY.SHIFT, KEY.ALT. cbn [fst snd].
    rewrite Hlow. cbn [Z.eqb].
    apply Z.eqb_neq in H1 as ->. apply Z.eqb_neq in H2 as ->.
    by apply Z.eqb_neq in H3 as ->.
Qed.

Lemma solitary_modifier_index_witness :
  (keys (register gecko (empty_handler document) 256 (Callback "cb") false).1
   = <[property (17, false, false, false) := Callback "cb"]> ∅) ∧
  (keys (register gecko (empty_handler document) 512 (Callback "cb") false).1
   = <[property (16, false, false, false) := Callback "cb"]> ∅) ∧
  (keys (register gecko (empty_handler document) 1024 (Callback "cb") true).1
   = <[property (18, false, false, false) := Callback "cb"]> ∅) ∧
  (keys (register gecko (empty_handler document) (256 + 512)
                  (Callback "cb") false).1
   = <[property (0, true, true, false) := Callback "cb"]> ∅).
Proof.
  split; [|split; [|split]].
  - apply (solitary_modifier_index gecko (empty_handler document) 256
             (Callback "cb") false); [vm_compute|]; reflexivity.
  - apply (solitary_modifier_index gecko (empty_handler document) 512
             (Callback "cb") false); [vm_compute|]; reflexivity.
  - apply (solitary_modifier_index gecko (empty_handler document) 1024
             (Callback "cb") true); [vm_compute|]; reflexivity.
  - apply (solitary_modifier_index gecko (empty_handler document) (256 + 512)
             (Callback "cb") false); [vm_compute; reflexivity|..]; done.
Defined.

(** ** The factory and the delivery of events *)










(** * Further properties *)

(** ** Key specifications and keyspecs *)

Lemma land_low_bits (x m : Z) :
  Z.land (Z.ones 11) m = m → Z.land x m = Z.land (x `mod` 2048) m.
Proof.
  intros Hm. change 2048 with (2 ^ 11). rewrite <-Z.land_ones by done.
  by rewrite <-Z.land_assoc, Hm.
Qed.

Lemma decode_mod (key : Z) : decode key = decode (key `mod` 2048).
Proof.
  unfold decode, KEYMASK, KEY.CTRL, KEY.SHIFT, KEY.ALT.
  by rewrite <-!land_low_bits.
Qed.

Lemma spec_of_decode_low (key : Z) :
  0 ≤ key < 2048 → spec_of (decode key) = key.
Proof.
  intros Hk.
  assert (Forall (λ key, spec_of (decode key) = key) (seqZ 0 2048)) as Hall.
  { by_table. }
  rewrite Forall_forall in Hall. apply Hall, elem_of_seqZ. lia.
Qed.

Lemma solitary_other (key : Z) (i : keyspec) :
  key ≠ KEY.CTRL → key ≠ KEY.SHIFT → key ≠ KEY.ALT → solitary key i = i.
Proof.
  intros H1 H2 H3. unfold solitary.
  apply Z.eqb_neq in H1 as ->. apply Z.eqb_neq in H2 as ->.
  apply Z.eqb_neq in H3 as ->. by case_match.
Qed.

(** X1: decoding undoes the sum a caller writes: for a key code from 0 to
    255 and any flags, [register] decodes the sum of the code and the
    weights of the flags to that code and those flags. *)
Theorem decode_spec_of (code : Z) (ctrl shift alt : bool) :
  0 ≤ code ≤ 255 →
  decode (spec_of (code, ctrl, shift, alt)) = (code, ctrl, shift, alt).
Proof. intros Hc. unfold spec_of. by apply decode_encoded. Qed.

Lemma decode_spec_of_witness :
  decode (spec_of (KEY.ESC, true, true, false)) = (KEY.ESC, true, true, false).
Proof. apply (decode_spec_of KEY.ESC true true false). vm_compute. by split. Defined.

(** X2: decoding reads bits 0 to 10 of a key specification and nothing
    else: for every integer, the decoded code lies between 0 and 255, and
    the sum written from the decoded keyspec is the specification modulo
    2048.  So two specifications decode alike exactly when they differ by
    a multiple of 2048. *)
Theorem spec_of_decode (key key' : Z) :
  0 ≤ (decode key).1.1.1 ≤ 255 ∧
  spec_of (decode key) = key `mod` 2048 ∧
  (decode key = decode key' ↔ key `mod` 2048 = key' `mod` 2048).
Proof.
  split; [|split].
  - unfold decode, KEYMASK; cbn [fst].
    assert (Z.land key 255 = key `mod` 256) as ->
      by apply (Z.land_ones key 8 ltac:(done)).
    pose proof (Z.mod_pos_bound key 256). lia.
  - rewrite decode_mod. apply spec_of_decode_low, Z.mod_pos_bound. lia.
  - split.
    + intros Heq.
      rewrite <-(spec_of_decode_low (key `mod` 2048)),
              <-(spec_of_decode_low (key' `mod` 2048))
        by (apply Z.mod_pos_bound; lia).
      by rewrite <-!decode_mod, Heq.
    + intros Heq. by rewrite (decode_mod key), (decode_mod key'), Heq.
Qed.

(** X4: the property name JavaScript makes of the array that indexes
    [keys] tells keyspecs apart: two keyspecs that differ in the code or
    in a flag have different names, so [keys] never mixes up two chords. *)
Theorem property_names_distinct (i j : keyspec) :
  i ≠ j → property i ≠ property j.
Proof. intros Hne Heq. by apply Hne, property_inj. Qed.

Lemma property_names_distinct_witness :
  property (KEY.ONE, false, false, false) ≠ property (11, false, false, false).
Proof. apply property_names_distinct. vm_compute. discriminate. Defined.

(** ** What [handler.register] keeps *)

Lemma register_outcome (lib : library) (h : handler) (key : Z) (m : method)
    (override : bool) :
  (register lib h key m override).1 = h ∨
  ((register lib h key m override).1 = bound h (index_of key) m ∧
   keys h !! property (index_of key) = None).
Proof.
  destruct (broken !! key) as [text|] eqn:Hbr, override eqn:Hov;
    try (left; by rewrite (register_broken _ _ _ _ text)).
  all: destruct (keys h !! property (index_of key)) as [b|] eqn:Hb;
    [left; by rewrite (register_mapped _ _ _ _ b) by auto|right].
  all: destruct (register_stored lib h key m override) as (fx & Hr & _);
    subst; auto.
  all: by rewrite Hr.
Qed.

Lemma index_of_range (key : Z) : 0 ≤ (index_of key).1.1.1 ≤ 255.
Proof.
  assert (0 ≤ (decode key).1.1.1 ≤ 255) as Hd.
  { unfold decode, KEYMASK; cbn [fst].
    assert (Z.land key 255 = key `mod` 256) as ->
      by apply (Z.land_ones key 8 ltac:(done)).
    pose proof (Z.mod_pos_bound key 256). lia. }
  unfold index_of, solitary. by repeat case_match.
Qed.

Lemma bound_lookup_Some (h : handler) (i : keyspec) (m b : method)
    (s : string) :
  keys (bound h i m) !! s = Some b →
  s = property i ∨
  (i.1.1.1 = KEY.UMLAUT ∧ s = property (KEY.UMLAUT_2, i.1.1.2, i.1.2, i.2)) ∨
  keys h !! s = Some b.
Proof.
  unfold bound; cbn [keys]. destruct (i.1.1.1 =? KEY.UMLAUT) eqn:Hu.
  - apply Z.eqb_eq in Hu. rewrite !lookup_insert. repeat case_decide; auto.
  - rewrite lookup_insert. case_decide; auto.
Qed.

(** X5: every binding that calls of [register] put into an instance sits
    under the property name of a keyspec whose code lies between 0 and
    255.  So a key-down event whose normalised code is outside that range
    is never cancelled, and such a key-up event calls nothing. *)
Theorem reachable_codes_in_range (lib : library) (h : handler) :
  reachable lib h →
  (∀ s m, keys h !! s = Some m →
          ∃ i : keyspec, s = property i ∧ 0 ≤ i.1.1.1 ≤ 255) ∧
  (∀ lib' invoke ev w,
     ¬ 0 ≤ (normalize lib' ev).1.1.1 ≤ 255 →
     cancel lib' (keys h) ev = (ev, []) ∧
     monitor invoke lib' (keys h) ev w = (w, ev, [])).
Proof.
  intros Hr.
  assert (∀ s m, keys h !! s = Some m →
                 ∃ i : keyspec, s = property i ∧ 0 ≤ i.1.1.1 ≤ 255) as Hinv.
  { induction Hr as [e|h key m0 override Hr IH]; intros s m Hs; [done|].
    destruct (register_outcome lib h key m0 override) as [Heq|[Heq _]];
      rewrite Heq in Hs; [by eapply IH|].
    apply bound_lookup_Some in Hs as [->|[[Hu ->]|Hs]]; [| |by eapply IH].
    - exists (index_of key). split; [done|apply index_of_range].
    - eexists. split; [done|]. done. }
  split; [done|]. intros lib' invoke ev w Hev.
  assert (keys h !! property (normalize lib' ev) = None) as Hnone.
  { destruct (keys h !! property (normalize lib' ev)) as [m|] eqn:Hm; [|done].
    destruct (Hinv _ _ Hm) as (i & Heq%property_inj & Hi).
    by rewrite Heq in Hev. }
  by rewrite cancel_unbound, monitor_unbound.
Qed.

Lemma reachable_codes_in_range_witness :
  (∀ s m,
     keys (register gecko (makeHandler myDiv).1 KEY.A (Callback "cb") false).1
       !! s = Some m →
     ∃ i : keyspec, s = property i ∧ 0 ≤ i.1.1.1 ≤ 255) ∧
  (∀ lib' invoke ev w,
     ¬ 0 ≤ (normalize lib' ev).1.1.1 ≤ 255 →
     cancel lib'
       (keys (register gecko (makeHandler myDiv).1 KEY.A (Callback "cb") false).1)
       ev = (ev, []) ∧
     monitor invoke lib'
       (keys (register gecko (makeHandler myDiv).1 KEY.A (Callback "cb") false).1)
       ev w = (w, ev, [])).
Proof.
  apply (reachable_codes_in_range gecko).
  apply reachable_register, reachable_made.
Defined.

(** X6: in every instance that calls of [register] produce, a binding of
    the umlaut key 59 with some flags comes with the same method bound to
    the secondary code 186 with those flags: the two codes of the key
    always reach the same method. *)
Theorem reachable_umlaut_alias (lib : library) (h : handler)
    (ctrl shift alt : bool) (m : method) :
  reachable lib h →
  keys h !! property (KEY.UMLAUT, ctrl, shift, alt) = Some m →
  keys h !! property (KEY.UMLAUT_2, ctrl, shift, alt) = Some m.
Proof.
  intros Hr. revert ctrl shift alt m.
  induction Hr as [e|h key m0 override Hr IH]; intros ctrl shift alt m Hs;
    [done|].
  destruct (register_outcome lib h key m0 override) as [Heq|[Heq Hfree]];
    rewrite Heq in Hs |- *; [by apply IH|].
  destruct (index_of key) as [[[code c] s] a] eqn:Hi.
  destruct (decide (code = KEY.UMLAUT)) as [->|Hcode].
  - destruct (decide ((c, s, a) = (ctrl, shift, alt))) as [[= -> -> ->]|Hf].
    + rewrite bound_lookup in Hs. rewrite bound_lookup_alias. done.
    + rewrite bound_lookup_other in Hs; cbn [fst snd];
        [|intros [= -> -> ->]; done|intros _ [=]].
      rewrite bound_lookup_other; cbn [fst snd];
        [by apply IH|intros [=]|intros _ [= -> -> ->]; done].
  - rewrite bound_lookup_other in Hs; cbn [fst snd];
      [|intros [= <- _ _ _]; done|done].
    apply IH in Hs.
    destruct (decide ((KEY.UMLAUT_2, ctrl, shift, alt) = (code, c, s, a)))
      as [Hsame|Hne]; [by rewrite Hsame, Hfree in Hs|].
    by rewrite bound_lookup_other.
Qed.

Lemma reachable_umlaut_alias_witness :
  keys (register gecko (makeHandler document).1 (KEY.CTRL + KEY.SHIFT + KEY.UMLAUT)
                 (Callback "cb") false).1
    !! property (KEY.UMLAUT_2, true, true, false) = Some (Callback "cb").
Proof.
  apply (reachable_umlaut_alias gecko).
  - apply reachable_register, reachable_made.
  - vm_compute. reflexivity.
Defined.

(** X7: a call of [register] leaves every slot of [keys] as it was, with
    two exceptions: the index of the key specification, and only if it
    was free, which now holds the method; and, when that index has the
    umlaut code 59, the slot of the secondary code 186 with the same
    flags.  Apart from that one alias slot no binding is ever replaced or
    removed. *)
Theorem register_keeps_bindings (lib : library) (h : handler) (key : Z)
    (m : method) (override : bool) (s : string) :
  ((index_of key).1.1.1 = KEY.UMLAUT →
   s ≠ property (KEY.UMLAUT_2, (index_of key).1.1.2, (index_of key).1.2,
                 (index_of key).2)) →
  keys (register lib h key m override).1 !! s = keys h !! s ∨
  (s = property (index_of key) ∧ keys h !! s = None ∧
   keys (register lib h key m override).1 !! s = Some m).
Proof.
  intros Halias.
  destruct (register_outcome lib h key m override) as [->|[-> Hfree]];
    [by left|].
  destruct (decide (s = property (index_of key))) as [->|Hne].
  - right. by rewrite bound_lookup.
  - left. unfold bound; cbn [keys]. case_match eqn:Hu.
    + apply Z.eqb_eq in Hu. specialize (Halias Hu).
      by rewrite !lookup_insert_ne.
    + by rewrite lookup_insert_ne.
Qed.

Lemma register_keeps_bindings_witness :
  keys (register gecko
          (bound (empty_handler document) (KEY.A, false, false, false)
                 (Callback "first"))
          KEY.UMLAUT (Callback "second") true).1
    !! property (KEY.A, false, false, false)
  = keys (bound (empty_handler document) (KEY.A, false, false, false)
                (Callback "first")) !! property (KEY.A, false, false, false) ∨
  (property (KEY.A, false, false, false) = property (index_of KEY.UMLAUT) ∧
   keys (bound (empty_handler document) (KEY.A, false, false, false)
               (Callback "first")) !! property (KEY.A, false, false, false)
   = None ∧
   keys (register gecko
           (bound (empty_handler document) (KEY.A, false, false, false)
                  (Callback "first"))
           KEY.UMLAUT (Callback "second") true).1
     !! property (KEY.A, false, false, false) = Some (Callback "second")).
Proof.
  apply (register_keeps_bindings gecko
           (bound (empty_handler document) (KEY.A, false, false, false)
                  (Callback "first"))
           KEY.UMLAUT (Callback "second") true
           (property (KEY.A, false, false, false))).
  intros _. vm_compute. discriminate.
Defined.

(** X3: apart from the three solitary modifiers 256, 512 and 1024, two
    different key specifications below 2048 are filed under different
    indexes, and registering one leaves the slot of the other as it was,
    so that it makes no conflict for the other.  The one exception is the
    umlaut alias: a specification of code 59 also takes the slot of the
    specification of code 186 with the same flags. *)
Theorem index_of_injective (key key' : Z) :
  0 ≤ key < 2048 → 0 ≤ key' < 2048 →
  key ∉ [KEY.CTRL; KEY.SHIFT; KEY.ALT] → key' ∉ [KEY.CTRL; KEY.SHIFT; KEY.ALT] →
  key ≠ key' →
  index_of key ≠ index_of key' ∧
  ∀ (lib : library) (h : handler) (m : method) (override : bool),
    ((index_of key).1.1.1 = KEY.UMLAUT →
     index_of key' ≠ (KEY.UMLAUT_2, (index_of key).1.1.2, (index_of key).1.2,
                      (index_of key).2)) →
    keys (register lib h key m override).1 !! property (index_of key')
    = keys h !! property (index_of key').
Proof.
  intros Hk Hk' Hs Hs' Hne.
  assert (index_of key ≠ index_of key') as Hidx.
  { unfold index_of. rewrite !not_elem_of_cons in Hs, Hs'.
    destruct Hs as (? & ? & ? & _), Hs' as (? & ? & ? & _).
    rewrite !solitary_other by done. intros Heq. apply Hne.
    by rewrite <-(spec_of_decode_low key), <-(spec_of_decode_low key'), Heq. }
  split; [done|]. intros lib h m override Halias.
  destruct (register_outcome lib h key m override) as [->|[-> _]]; [done|].
  by apply bound_lookup_other.
Qed.

Lemma index_of_injective_witness :
  index_of (KEY.CTRL + KEY.F) ≠ index_of (KEY.SHIFT + KEY.F) ∧
  ∀ (lib : library) (h : handler) (m : method) (override : bool),
    ((index_of (KEY.CTRL + KEY.F)).1.1.1 = KEY.UMLAUT →
     index_of (KEY.SHIFT + KEY.F)
     ≠ (KEY.UMLAUT_2, (index_of (KEY.CTRL + KEY.F)).1.1.2,
        (index_of (KEY.CTRL + KEY.F)).1.2, (index_of (KEY.CTRL + KEY.F)).2)) →
    keys (register lib h (KEY.CTRL + KEY.F) m override).1
      !! property (index_of (KEY.SHIFT + KEY.F))
    = keys h !! property (index_of (KEY.SHIFT + KEY.F)).
Proof.
  apply (index_of_injective (KEY.CTRL + KEY.F) (KEY.SHIFT + KEY.F)).
  - vm_compute. by split.
  - vm_compute. by split.
  - apply (bool_decide_unpack _). vm_compute. reflexivity.
  - apply (bool_decide_unpack _). vm_compute. reflexivity.
  - vm_compute. discriminate.
Defined.

(** ** What the event handlers do and never do *)





(** X10: with a browser other than IE the module leaves the page alone.
    [register] does nothing outside [keys] but raise one of its two
    alerts, and [cancel] does nothing to the event but stop it when the
    chord is bound. *)
Theorem other_browsers_no_page_effect (lib : library) (h : handler)
    (key : Z) (m : method) (override : bool) (ev : event) :
  msie lib = false →
  ((register lib h key m override).2 = [] ∨
   ∃ text, (register lib h key m override).2 = [alert text]) ∧
  (cancel lib (keys h) ev = (ev, []) ∨
   cancel lib (keys h) ev = (stopped ev, [stopEvent])).
Proof.
  intros Hie. split.
  - unfold register. rewrite Hie. cbn [andb].
    repeat case_match; cbn [snd]; eauto.
  - unfold cancel. rewrite Hie. cbn [andb]. case_match; auto.
Qed.

Lemma other_browsers_no_page_effect_witness :
  ((register safari (empty_handler myDiv) (KEY.ALT + KEY.ONE)
             (Callback "cb") false).2 = [] ∨
   ∃ text, (register safari (empty_handler myDiv) (KEY.ALT + KEY.ONE)
                     (Callback "cb") false).2 = [alert text]) ∧
  (cancel safari (keys (empty_handler myDiv)) ctrl_f = (ctrl_f, []) ∨
   cancel safari (keys (empty_handler myDiv)) ctrl_f
   = (stopped ctrl_f, [stopEvent])).
Proof.
  apply (other_browsers_no_page_effect safari (empty_handler myDiv)
           (KEY.ALT + KEY.ONE) (Callback "cb") false ctrl_f).
  reflexivity.
Defined.

(** X11: with IE, the element that a key-down moves on screen is the one
    [register] made, in the Prototype build.  When a registration of Alt
    with a digit or a letter goes through, the Prototype build appends one
    access key element, with the id [__altkeyhandler_] and the code; a
    key-down event of that chord is then stopped and sets the style of
    the element with that same id.  In the jQuery build the same call
    throws at [Element.setStyle]: the binding is stored, as in the other
    build, but no element is appended. *)
Theorem access_key_element_matches (lib : library) (h : handler) (key : Z)
    (m : method) (override : bool) (ev : event) :
  msie lib = true → webkit lib = false →
  accepted (register lib h key m override).2 = true →
  isAccessKey (index_of key).1.1.1 (index_of key).2 = true →
  (keyCode ev, ctrlKey ev, shiftKey ev, altKey ev) = index_of key →
  register_js Prototype lib h key m override
  = ((register lib h key m override).1,
     [appendAccessKeyDiv
        match element_of h with
        | document => body
        | byId _ => node (element_of h)
        end
        ("__altkeyhandler_" +:+ pretty (keyCode ev)) (keyCode ev)],
     false) ∧
  register_js jQuery lib h key m override
  = ((register lib h key m override).1, [], true) ∧
  keys (register lib h key m override).1 !! property (index_of key)
  = Some m ∧
  cancel lib (keys (register lib h key m override).1) ev
  = (stopped ev,
     [stopEvent; setStyle ("__altkeyhandler_" +:+ pretty (keyCode ev))]).
Proof.
  intros Hie Hwk Hacc Hak Hev.
  pose proof (register_accepted_bound _ _ _ _ _ Hacc) as Hb.
  assert ((register lib h key m override).2
          = [appendAccessKeyDiv
               match element_of h with
               | document => body
               | byId _ => node (element_of h)
               end
               ("__altkeyhandler_" +:+ pretty (keyCode ev)) (keyCode ev)])
    as Hfx.
  { apply register_accepted in Hacc as [Hpass Hfree].
    unfold register. rewrite register_passes_check by done.
    fold (index_of key). rewrite <-Hev in Hfree, Hak |- *.
    cbv beta iota zeta. rewrite Hfree, Hie. cbn [fst snd] in Hak.
    by rewrite Hak. }
  split_and!.
  - unfold register_js.
    destruct (register lib h key m override) as [h' fx].
    cbn [fst snd] in *. by subst.
  - unfold register_js.
    destruct (register lib h key m override) as [h' fx].
    cbn [fst snd] in *. by rewrite Hie, Hacc, Hak.
  - rewrite Hb. apply bound_lookup.
  - rewrite Hb. unfold cancel. rewrite cancel_key_normalize.
    assert (normalize lib ev
            = (keyCode ev, ctrlKey ev, shiftKey ev, altKey ev)) as ->.
    { unfold normalize. by rewrite Hwk. }
    rewrite <-Hev in Hak |- *. cbn [fst snd] in Hak.
    assert ((112 <=? keyCode ev) && (keyCode ev <=? 123) = false) as Hf.
    { unfold isAccessKey, KEY.ZERO, KEY.NINE, KEY.A, KEY.Z in Hak.
      apply andb_true_iff in Hak as [_ Hak].
      apply andb_false_iff.
      apply orb_true_iff in Hak as [Hak|Hak];
        apply andb_true_iff in Hak as [_ Hak%Z.leb_le];
        left; apply Z.leb_gt; lia. }
    rewrite bound_lookup, Hie. cbv zeta.
    cbn [stopped keyCode altKey andb]. rewrite Hf.
    cbn [stopped keyCode altKey andb]. by rewrite Hak.
Qed.

Lemma access_key_element_matches_witness :
  register_js Prototype explorer (empty_handler myDiv) (KEY.ALT + KEY.ONE)
              (Callback "cb") false
  = ((register explorer (empty_handler myDiv) (KEY.ALT + KEY.ONE)
               (Callback "cb") false).1,
     [appendAccessKeyDiv (node myDiv) "__altkeyhandler_49" 49], false) ∧
  register_js jQuery explorer (empty_handler myDiv) (KEY.ALT + KEY.ONE)
              (Callback "cb") false
  = ((register explorer (empty_handler myDiv) (KEY.ALT + KEY.ONE)
               (Callback "cb") false).1, [], true) ∧
  keys (register explorer (empty_handler myDiv) (KEY.ALT + KEY.ONE)
                 (Callback "cb") false).1
    !! property (index_of (KEY.ALT + KEY.ONE)) = Some (Callback "cb") ∧
  cancel explorer
         (keys (register explorer (empty_handler myDiv) (KEY.ALT + KEY.ONE)
                         (Callback "cb") false).1)
         (key_event KEY.ONE None false false true (node myDiv))
  = (stopped (key_event KEY.ONE None false false true (node myDiv)),
     [stopEvent; setStyle "__altkeyhandler_49"]).
Proof.
  apply (access_key_element_matches explorer (empty_handler myDiv)
           (KEY.ALT + KEY.ONE) (Callback "cb") false
           (key_event KEY.ONE None false false true (node myDiv))).
  - reflexivity.
  - reflexivity.
  - vm_compute. reflexivity.
  - vm_compute. reflexivity.
  - vm_compute. reflexivity.
Defined.

(** ** The factory *)

(** X12: [Keyboard.handlerFor] makes the instance of an element once,
    where it can make one.  On a page whose body exists and for an id
    that names no member inherited from [Object.prototype], the call
    gives the element's instance, as [Keyboard.handlerFor] above has it;
    a second call gives the same instance, sets up no further observer
    and leaves the state as it is; the instances of the other elements
    are not touched.  For the document before the body exists the call
    throws after it set up the two observers and stores no instance, so
    that every further call sets up two more.  For an id that names an
    inherited member the call gives that member back and never makes an
    instance. *)
Theorem handlerFor_once (inherited : string → bool) (w : world)
    (e : element) :
  (loaded w = true → (∀ id, e = byId id → inherited id = false) →
   handlerFor_js inherited w e
   = ((Keyboard.handlerFor w e).1.1, instance (Keyboard.handlerFor w e).1.2,
      (Keyboard.handlerFor w e).2) ∧
   handlerFor_js inherited (handlerFor_js inherited w e).1.1 e
   = ((handlerFor_js inherited w e).1.1,
      instance (Keyboard.handlerFor w e).1.2, []) ∧
   handlers (handlerFor_js inherited w e).1.1 !! e
   = Some (Keyboard.handlerFor w e).1.2 ∧
   ∀ e', e' ≠ e →
         handlers (handlerFor_js inherited w e).1.1 !! e'
         = handlers w !! e') ∧
  (loaded w = false → e = document → handlers w !! e = None →
   handlerFor_js inherited w e
   = (w, thrown, [observe e "keydown"; observe e "keyup"])) ∧
  (∀ id, e = byId id → inherited id = true → handlers w !! e = None →
         handlerFor_js inherited w e = (w, inherited_member id, [])).
Proof.
  split_and!.
  - intros Hl Hid.
    assert (handlerFor_js inherited w e
            = ((Keyboard.handlerFor w e).1.1,
               instance (Keyboard.handlerFor w e).1.2,
               (Keyboard.handlerFor w e).2)) as Hjs.
    { unfold handlerFor_js, Keyboard.handlerFor, makeHandler_js.
      rewrite Hl. destruct (handlers w !! e) as [h|]; [done|].
      destruct e as [|id]; [done|]. by rewrite (Hid id eq_refl). }
    rewrite Hjs. cbn [fst snd]. split_and!; [done|..].
    + unfold handlerFor_js, Keyboard.handlerFor.
      destruct (handlers w !! e) as [h|] eqn:He;
        cbn [fst snd makeHandler set_handler handlers].
      * by rewrite He.
      * by rewrite lookup_insert_eq.
    + unfold Keyboard.handlerFor.
      destruct (handlers w !! e) as [h|] eqn:He;
        cbn [fst snd makeHandler set_handler handlers]; [done|].
      by rewrite lookup_insert_eq.
    + intros e' Hne. unfold Keyboard.handlerFor.
      destruct (handlers w !! e) as [h|] eqn:He;
        cbn [fst snd makeHandler set_handler handlers]; [done|].
      by rewrite lookup_insert_ne.
  - intros Hl -> Hnone. unfold handlerFor_js, makeHandler_js.
    by rewrite Hnone, Hl.
  - intros id -> Hid Hnone. unfold handlerFor_js. by rewrite Hnone, Hid.
Qed.

Lemma handlerFor_once_witness :
  (handlerFor_js standard_members (startup true) myDiv
   = ((Keyboard.handlerFor (startup true) myDiv).1.1,
      instance (Keyboard.handlerFor (startup true) myDiv).1.2,
      (Keyboard.handlerFor (startup true) myDiv).2) ∧
   handlerFor_js standard_members
     (handlerFor_js standard_members (startup true) myDiv).1.1 myDiv
   = ((handlerFor_js standard_members (startup true) myDiv).1.1,
      instance (Keyboard.handlerFor (startup true) myDiv).1.2, []) ∧
   handlers (handlerFor_js standard_members (startup true) myDiv).1.1 !! myDiv
   = Some (Keyboard.handlerFor (startup true) myDiv).1.2 ∧
   ∀ e', e' ≠ myDiv →
         handlers (handlerFor_js standard_members (startup true) myDiv).1.1
           !! e'
         = handlers (startup true) !! e') ∧
  handlerFor_js standard_members (startup false) document
  = (startup false, thrown,
     [observe document "keydown"; observe document "keyup"]) ∧
  handlerFor_js standard_members (startup true) (byId "constructor")
  = (startup true, inherited_member "constructor", []).
Proof.
  split; [|split].
  - destruct (handlerFor_once standard_members (startup true) myDiv)
      as (Hmade & _ & _).
    apply Hmade; [reflexivity|]. intros id [= <-]. vm_compute. reflexivity.
  - destruct (handlerFor_once standard_members (startup false) document)
      as (_ & Hthrown & _).
    apply Hthrown; reflexivity.
  - destruct (handlerFor_once standard_members (startup true)
                (byId "constructor")) as (_ & _ & Hmember).
    apply Hmember; [reflexivity| |reflexivity]. vm_compute. reflexivity.
Defined.

(** X13: the registries are per element.  A call of [Keyboard.register]
    for one element, whatever its outcome, leaves the instance of every
    other element as it was, so that the key events delivered to the
    other elements are handled as before. *)
Theorem register_other_element (lib : library) (w : world) (e e' : element)
    (key : Z) (m : method) (override : bool) :
  e' ≠ e →
  handlers (Keyboard.register lib w e key m override).1 !! e'
  = handlers w !! e' ∧
  (∀ i, lookup_key (Keyboard.register lib w e key m override).1 e' i
        = lookup_key w e' i) ∧
  (∀ lib' ev, keydown lib' (Keyboard.register lib w e key m override).1 e' ev
              = keydown lib' w e' ev).
Proof.
  intros Hne.
  assert (handlers (Keyboard.register lib w e key m override).1 !! e'
          = handlers w !! e') as Hh.
  { unfold Keyboard.register, Keyboard.handlerFor.
    destruct (loaded w); [|done].
    destruct (handlers w !! e) as [h|]; cbn [makeHandler].
    - destruct (register lib h key m override) as [h' fx].
      cbn [fst set_handler handlers]. by rewrite lookup_insert_ne.
    - destruct (register lib _ key m override) as [h' fx].
      cbn [fst set_handler handlers]. by rewrite !lookup_insert_ne. }
  unfold lookup_key, keydown. by rewrite Hh.
Qed.

Lemma register_other_element_witness :
  handlers (Keyboard.register gecko (startup true) myDiv KEY.A
                              (Callback "cb") false).1 !! document
  = handlers (startup true) !! document ∧
  (∀ i, lookup_key (Keyboard.register gecko (startup true) myDiv KEY.A
                                      (Callback "cb") false).1 document i
        = lookup_key (startup true) document i) ∧
  (∀ lib' ev, keydown lib' (Keyboard.register gecko (startup true) myDiv KEY.A
                                              (Callback "cb") false).1
                      document ev
              = keydown lib' (startup true) document ev).
Proof.
  apply (register_other_element gecko (startup true) myDiv document KEY.A
           (Callback "cb") false).
  discriminate.
Defined.

(** ** [makeHandler]: making the target focusable *)

(** X16: making a target focusable a second time changes nothing more.
    A target with a tab index other than 0 and -1 is left as it is; after
    the change an INPUT never has the tab index -1 and any other element
    never has the tab index 0 (it loses its tab stop); the node name is
    never changed. *)
Theorem focusable_idempotent (t : focus) :
  focusable (focusable t) = focusable t ∧
  nodeName (focusable t) = nodeName t ∧
  (tabIndex t ≠ 0 → tabIndex t ≠ -1 → focusable t = t) ∧
  (nodeName t = "INPUT" → tabIndex (focusable t) ≠ -1) ∧
  (nodeName t ≠ "INPUT" → tabIndex (focusable t) ≠ 0).
Proof.
  destruct t as [ti nn]. unfold focusable, truthy_number.
  cbn [tabIndex nodeName].
  destruct (ti =? -1) eqn:H1, (ti =? 0) eqn:H0, (String.eqb nn "INPUT") eqn:Hn;
    do 3 (cbn [orb negb tabIndex nodeName Z.eqb Pos.eqb];
          rewrite ?Hn, ?H1, ?H0);
    repeat match goal with
           | H : (_ =? _) = true |- _ => apply Z.eqb_eq in H
           | H : (_ =? _) = false |- _ => apply Z.eqb_neq in H
           | H : String.eqb _ _ = true |- _ => apply String.eqb_eq in H
           | H : String.eqb _ _ = false |- _ => apply String.eqb_neq in H
           end;
    split_and!; intros; done || lia.
Qed.

(** ** [lib.identify] of the jQuery variant *)

Lemma append_inj_r (p s1 s2 : string) : p +:+ s1 = p +:+ s2 → s1 = s2.
Proof. induction p as [|a p IH]; cbn; [done|]. intros [= ?]. auto. Qed.

Lemma anonymous_id_inj (k1 k2 : Z) :
  anonymous_id k1 = anonymous_id k2 → k1 = k2.
Proof. unfold anonymous_id. intros ?%append_inj_r. by apply (inj pretty). Qed.

Lemma identify_loop_ext (fuel : nat) (ids ids' : gset string) :
  ∀ c, (∀ k, c < k → (anonymous_id k ∈ ids ↔ anonymous_id k ∈ ids')) →
       identify_loop fuel ids c = identify_loop fuel ids' c.
Proof.
  induction fuel as [|fuel IH]; intros c Hext; [done|]. cbn [identify_loop].
  pose proof (Hext (c + 1) ltac:(lia)) as H1.
  destruct (decide (anonymous_id (c + 1) ∈ ids)),
           (decide (anonymous_id (c + 1) ∈ ids')); try tauto.
  apply IH. intros k Hk. apply Hext. lia.
Qed.

Lemma identify_loop_Some (fuel : nat) (ids : gset string) :
  ∀ c id c', identify_loop fuel ids c = Some (id, c') →
             (id ∉ ids) ∧ c < c' ∧ id = anonymous_id c'.
Proof.
  induction fuel as [|fuel IH]; intros c id c' H; [done|].
  cbn [identify_loop] in H.
  destruct (decide (anonymous_id (c + 1) ∈ ids)).
  - apply IH in H as (? & ? & ?). split_and!; [done|lia|done].
  - injection H as <- <-. split_and!; [done|lia|done].
Qed.

Lemma identify_loop_enough (fuel : nat) :
  ∀ (ids : gset string) c,
    (size ids < fuel)%nat → is_Some (identify_loop fuel ids c).
Proof.
  induction fuel as [|fuel IH]; intros ids c Hsize; [lia|].
  cbn [identify_loop].
  destruct (decide (anonymous_id (c + 1) ∈ ids)) as [Hin|]; [|done].
  rewrite (identify_loop_ext fuel ids (ids ∖ {[anonymous_id (c + 1)]})).
  - apply IH.
    pose proof (subset_size _ _ (subset_difference_elem_of _ _ Hin)). lia.
  - intros k Hk.
    assert (anonymous_id k ≠ anonymous_id (c + 1))
      by (intros ?%anonymous_id_inj; lia).
    rewrite elem_of_difference, not_elem_of_singleton. tauto.
Qed.

Lemma identify_loop_more (fuel : nat) (ids : gset string) :
  ∀ c r fuel', identify_loop fuel ids c = Some r → (fuel ≤ fuel')%nat →
               identify_loop fuel' ids c = Some r.
Proof.
  induction fuel as [|fuel IH]; intros c r fuel' H Hle; [done|].
  destruct fuel' as [|fuel']; [lia|]. cbn [identify_loop] in *.
  destruct (decide (anonymous_id (c + 1) ∈ ids)); [|done].
  apply (IH _ _ _ H). lia.
Qed.

(** X17: [lib.identify] always comes back.  For an element without id in
    a document with fewer ids than the rounds allowed, the loop ends, and
    with the same result for any larger number of rounds: the id is
    [anonymous_element_] and the new value of the counter, it was not in
    use in the document, it is the element's id afterwards, and the
    counter has grown.  An element with an id gets that id and nothing
    changes. *)
Theorem identify_fresh (fuel : nat) (p : page) :
  (size (ids p) < fuel)%nat →
  (∃ id p',
     identify fuel p "" = Some (id, p') ∧
     (id ∉ ids p) ∧ ids p' = {[id]} ∪ ids p ∧
     counter p < counter p' ∧ id = anonymous_id (counter p') ∧
     ∀ fuel', (size (ids p) < fuel')%nat →
              identify fuel' p "" = Some (id, p')) ∧
  (∀ id, id ≠ "" → identify fuel p id = Some (id, p)).
Proof.
  intros Hsize. split.
  - destruct (identify_loop_enough fuel (ids p) (counter p) Hsize)
      as [[id c'] Hloop].
    pose proof (identify_loop_Some _ _ _ _ _ Hloop) as (Hfresh & Hc & Hid).
    exists id, {| ids := {[id]} ∪ ids p; counter := c' |}.
    unfold identify; cbn [truthy_string]. rewrite Hloop.
    split_and!; [done..|].
    intros fuel' Hsize'.
    destruct (identify_loop_enough fuel' (ids p) (counter p) Hsize')
      as [r Hloop'].
    destruct (decide (fuel ≤ fuel')%nat).
    + by rewrite (identify_loop_more _ _ _ _ _ Hloop).
    + rewrite Hloop'.
      rewrite (identify_loop_more _ _ _ _ fuel Hloop') in Hloop by lia.
      by injection Hloop as ->.
  - intros [|a id] Hid; [done|]. done.
Qed.

Lemma identify_fresh_witness :
  (∃ id p',
     identify 3 (first_page {["anonymous_element_2"; "menu"]}) ""
     = Some (id, p') ∧
     (id ∉ ids (first_page {["anonymous_element_2"; "menu"]})) ∧
     ids p' = {[id]} ∪ ids (first_page {["anonymous_element_2"; "menu"]}) ∧
     counter (first_page {["anonymous_element_2"; "menu"]}) < counter p' ∧
     id = anonymous_id (counter p') ∧
     ∀ fuel',
       (size (ids (first_page {["anonymous_element_2"; "menu"]})) < fuel')%nat →
       identify fuel' (first_page {["anonymous_element_2"; "menu"]}) ""
       = Some (id, p')) ∧
  (∀ id, id ≠ "" →
         identify 3 (first_page {["anonymous_element_2"; "menu"]}) id
         = Some (id, first_page {["anonymous_element_2"; "menu"]})).
Proof.
  apply (identify_fresh 3 (first_page {["anonymous_element_2"; "menu"]})).
  vm_compute. lia.
Defined.

(** X18: two elements without id that [lib.identify] names one after the
    other get different ids, and the counter only grows. *)
Theorem identify_twice_distinct (fuel fuel' : nat) (p p1 p2 : page)
    (id1 id2 : string) :
  identify fuel p "" = Some (id1, p1) →
  identify fuel' p1 "" = Some (id2, p2) →
  id1 ≠ id2 ∧ counter p < counter p1 < counter p2.
Proof.
  unfold identify; cbn [truthy_string]. intros H1 H2.
  destruct (identify_loop fuel (ids p) (counter p)) as [[i1 c1]|] eqn:Hl1;
    [|done].
  cbn in H1. injection H1 as <- <-. cbn [ids counter] in H2.
  destruct (identify_loop fuel' _ c1) as [[i2 c2]|] eqn:Hl2; [|done].
  cbn in H2. injection H2 as <- <-. cbn [counter].
  apply identify_loop_Some in Hl1 as (_ & ? & _).
  apply identify_loop_Some in Hl2 as (Hfresh & ? & _).
  split; [|lia]. intros ->. by apply Hfresh, elem_of_union_l, elem_of_singleton.
Qed.

Lemma identify_twice_distinct_witness :
  "anonymous_element_2" ≠ "anonymous_element_3" ∧
  counter (first_page ∅)
  < counter {| ids := {["anonymous_element_2"]}; counter := 2 |}
  < counter {| ids := {["anonymous_element_3"; "anonymous_element_2"]};
               counter := 3 |}.
Proof.
  apply (identify_twice_distinct 1 2 (first_page ∅)
           {| ids := {["anonymous_element_2"]} ∪ ∅; counter := 2 |}
           {| ids := {["anonymous_element_3"]} ∪ ({["anonymous_element_2"]} ∪ ∅);
              counter := 3 |}).
  - vm_compute. reflexivity.
  - vm_compute. reflexivity.
Defined.
